(** * Quotes_Max_Drawdown: the drawdown scan and the greedy disjoint selection

    A shallow embedding of [find_top_drawdown_intervals] of
    [Quotes_Max_Drawdown.py] and the properties of its two phases: the
    scan over all (start, length) windows and the greedy selection of the
    most severe date-disjoint intervals.

    Prices and drawdown rates are IEEE binary64 numbers, as the [float64]
    column of the data frame has them; the arithmetic is the kernel's
    primitive binary64 arithmetic, specified by [FloatAxioms].  Integers
    are Python's unbounded integers ([Z]); date sets are finite sets. *)

From Stdlib Require Import ZArith Bool Lia.
From Stdlib Require Import Floats.
From stdpp Require Import base gmap sets list sorting strings.

Local Open Scope Z_scope.

(** ** Python values *)

(** The one exception the function can raise: a positional access out of
    bounds. *)
Inductive exn : Set := IndexError.

Inductive result (A : Type) : Type :=
| Ok (a : A)
| Raise (e : exn).
Arguments Ok {A} a.
Arguments Raise {A} e.

#[global] Instance result_ret : MRet result := fun A a => Ok a.
#[global] Instance result_bind : MBind result := fun A B f m =>
  match m with
  | Ok a => f a
  | Raise e => Raise e
  end.

Fixpoint mapM_result {A B : Type} (f : A -> result B) (l : list A) : result (list B) :=
  match l with
  | [] => Ok []
  | x :: l' => y ← f x; ys ← mapM_result f l'; Ok (y :: ys)
  end.

(** [seq[i]] and [series.iloc[i]]: a negative position counts from the end,
    a position outside [-n, n) raises [IndexError]. *)
Definition py_getitem {A : Type} (l : list A) (i : Z) : result A :=
  let n := Z.of_nat (length l) in
  if (i <? - n) || (n <=? i) then Raise IndexError
  else match l !! Z.to_nat (if i <? 0 then i + n else i) with
       | Some x => Ok x
       | None => Raise IndexError
       end.

(** A bound of a slice: negative bounds count from the end, and every
    bound is clipped to [0, n]. *)
Definition slice_bound (n i : Z) : Z :=
  if i <? 0 then Z.max (i + n) 0 else Z.min i n.

(** [seq[lo:hi]]; never raises. *)
Definition py_slice {A : Type} (l : list A) (lo hi : Z) : list A :=
  let n := Z.of_nat (length l) in
  let a := slice_bound n lo in
  let b := slice_bound n hi in
  take (Z.to_nat (b - a)) (drop (Z.to_nat a) l).

(** [range(lo, hi)] *)
Definition range (lo hi : Z) : list Z := seqZ lo (hi - lo).

(** [set(seq)], and the truth value of [a.intersection(b)]: a set is true
    when it is not empty. *)
Definition py_set (l : list Z) : gset Z := list_to_set l.

Definition intersects (a b : gset Z) : bool := bool_decide (a ∩ b ≠ ∅).

(** ** The data frame and the configuration *)

(** A row of the price history: its index entry (a timestamp, an integer
    count of time units) and its closing price. *)
Record row : Set := Row { date : Z; close : float }.

Definition DataFrame : Set := list row.

Definition index (data : DataFrame) : list Z := map date data.
Definition Close (data : DataFrame) : list float := map close data.
Definition len (data : DataFrame) : Z := Z.of_nat (length data).

(** The module's global parameters.  [MIN_DRAWDOWN_RATE] is held as the
    binary64 number it is compared as. *)
Record config : Set := Config {
  MIN_DRAWDOWN_RATE : float;
  MIN_DAYS : Z;
  MAX_DAYS : Z;
  TOP_N : Z
}.

Definition default_config : config :=
  {| MIN_DRAWDOWN_RATE := 10%float; MIN_DAYS := 5; MAX_DAYS := 60; TOP_N := 10 |}.

(** The dictionary appended for a qualifying window. *)
Record interval : Type := Interval {
  start_date : Z;
  end_date : Z;
  days : Z;
  drawdown_rate : float;
  start_price : float;
  end_price : float;
  dates : gset Z
}.

(** [(end_price / start_price - 1) * 100] *)
Definition rate (start_price end_price : float) : float :=
  ((end_price / start_price - 1) * 100)%float.

(** ** The scan *)

(** The inner loop, over the window lengths [ds] still to visit, for one
    [start_idx]; [drawdown_intervals] is the list built so far and
    [used_dates] the set the overlap test reads. *)
Fixpoint scan_days (cfg : config) (data : DataFrame) (used_dates : gset Z)
    (start_idx : Z) (ds : list Z) (drawdown_intervals : list interval)
    : result (list interval) :=
  match ds with
  | [] => Ok drawdown_intervals
  | days :: ds' =>
    let end_idx := start_idx + days in
    if len data <=? end_idx then Ok drawdown_intervals (* break *)
    else
      let current_dates := py_set (py_slice (index data) start_idx (end_idx + 1)) in
      if intersects current_dates used_dates
      then scan_days cfg data used_dates start_idx ds' drawdown_intervals (* continue *)
      else
        start_price ← py_getitem (Close data) start_idx;
        end_price ← py_getitem (Close data) end_idx;
        let drawdown_rate := rate start_price end_price in
        if (drawdown_rate <=? - MIN_DRAWDOWN_RATE cfg)%float then
          start_date ← py_getitem (index data) start_idx;
          end_date ← py_getitem (index data) end_idx;
          scan_days cfg data used_dates start_idx ds'
            (drawdown_intervals ++
             [ {| start_date := start_date; end_date := end_date; days := days;
                  drawdown_rate := drawdown_rate;
                  start_price := start_price; end_price := end_price;
                  dates := current_dates |} ])
        else scan_days cfg data used_dates start_idx ds' drawdown_intervals
  end.

(** The outer loop, over the start positions [ss] still to visit. *)
Fixpoint scan_starts (cfg : config) (data : DataFrame) (used_dates : gset Z)
    (ss : list Z) (drawdown_intervals : list interval) : result (list interval) :=
  match ss with
  | [] => Ok drawdown_intervals
  | start_idx :: ss' =>
    drawdown_intervals' ←
      scan_days cfg data used_dates start_idx
        (range (MIN_DAYS cfg) (MAX_DAYS cfg + 1)) drawdown_intervals;
    scan_starts cfg data used_dates ss' drawdown_intervals'
  end.

Definition scan (cfg : config) (data : DataFrame) (used_dates : gset Z)
    : result (list interval) :=
  scan_starts cfg data used_dates (range 0 (len data)) [].

(** ** The sort *)

(** [list.sort(key=...)] compares keys with [<] only and is stable.  On
    keys that [<] orders totally up to equality every stable sort returns
    the same list; it is computed here by insertion, an element going
    before the first one that is not smaller than it. *)
Fixpoint insert_by {A : Type} (key : A -> float) (x : A) (l : list A) : list A :=
  match l with
  | [] => [x]
  | y :: l' =>
    if (key y <? key x)%float then y :: insert_by key x l' else x :: y :: l'
  end.

Definition sort_by {A : Type} (key : A -> float) (l : list A) : list A :=
  foldr (insert_by key) [] l.

(** ** The selection *)

(** The loop over the already selected intervals. *)
Definition is_overlap (current_dates : gset Z) (selected_intervals : list interval) : bool :=
  existsb (fun selected => intersects current_dates (dates selected)) selected_intervals.

(** The loop over the sorted candidates; the state is the list selected so
    far and the set of used dates. *)
Fixpoint select (cfg : config) (drawdown_intervals : list interval)
    (selected_intervals : list interval) (used_dates : gset Z)
    : list interval * gset Z :=
  match drawdown_intervals with
  | [] => (selected_intervals, used_dates)
  | interval :: rest =>
    if TOP_N cfg <=? Z.of_nat (length selected_intervals)
    then (selected_intervals, used_dates) (* break *)
    else
      let current_dates := dates interval in
      if is_overlap current_dates selected_intervals
      then select cfg rest selected_intervals used_dates
      else select cfg rest (selected_intervals ++ [interval]) (used_dates ∪ current_dates)
  end.

Definition find_top_drawdown_intervals (cfg : config) (data : DataFrame)
    : result (list interval) :=
  let used_dates : gset Z := ∅ in
  drawdown_intervals ← scan cfg data used_dates;
  let drawdown_intervals := sort_by drawdown_rate drawdown_intervals in
  Ok (select cfg drawdown_intervals [] used_dates).1.

(** ** Windows and their candidates *)

(** The windows [(start_idx, days)] the inner loop reaches from
    [start_idx] before its [break], in the order it reaches them. *)
Fixpoint visited (n start_idx : Z) (ds : list Z) : list (Z * Z) :=
  match ds with
  | [] => []
  | d :: ds' =>
    if n <=? start_idx + d then [] else (start_idx, d) :: visited n start_idx ds'
  end.

(** All the windows the two loops reach, in order. *)
Definition windows (cfg : config) (data : DataFrame) : list (Z * Z) :=
  range 0 (len data) ≫= fun start_idx =>
    visited (len data) start_idx (range (MIN_DAYS cfg) (MAX_DAYS cfg + 1)).

(** The drawdown rate of a window. *)
Definition window_rate (data : DataFrame) (w : Z * Z) : result float :=
  start_price ← py_getitem (Close data) w.1;
  end_price ← py_getitem (Close data) (w.1 + w.2);
  Ok (rate start_price end_price).

(** The dictionary the scan builds for a window. *)
Definition candidate (data : DataFrame) (w : Z * Z) : result interval :=
  let end_idx := w.1 + w.2 in
  start_price ← py_getitem (Close data) w.1;
  end_price ← py_getitem (Close data) end_idx;
  start_date ← py_getitem (index data) w.1;
  end_date ← py_getitem (index data) end_idx;
  Ok {| start_date := start_date; end_date := end_date; days := w.2;
        drawdown_rate := rate start_price end_price;
        start_price := start_price; end_price := end_price;
        dates := py_set (py_slice (index data) w.1 (end_idx + 1)) |}.

(** The threshold test of the scan. *)
Definition qualifies (cfg : config) (data : DataFrame) (w : Z * Z) : bool :=
  match window_rate data w with
  | Ok r => (r <=? - MIN_DRAWDOWN_RATE cfg)%float
  | Raise _ => false
  end.

(** The windows for which the scan appends a candidate, in its order. *)
Definition emitted (cfg : config) (data : DataFrame) : list (Z * Z) :=
  List.filter (qualifies cfg data) (windows cfg data).

(** The rate of a window as a sort key. *)
Definition rate_of (data : DataFrame) (w : Z * Z) : float :=
  match window_rate data w with
  | Ok r => r
  | Raise _ => nan
  end.

(** The order of the scan: by start position, then by window length. *)
Definition scan_before (w1 w2 : Z * Z) : Prop :=
  w1.1 < w2.1 \/ (w1.1 = w2.1 /\ w1.2 < w2.2).

(** A float that is a number: it compares equal to itself. *)
Definition is_number (x : float) : Prop := (x <=? x)%float = true.

(** The order of a stably sorted list: the keys ascend, and of two
    elements whose keys do not decide, the one that was first stays first;
    [R] is the order the elements had. *)
Definition stable_order {A : Type} (key : A -> float) (R : relation A) : relation A :=
  fun a b =>
    (key a <=? key b)%float = true /\ ((key a <? key b)%float = true \/ R a b).

(** Two intervals share no date. *)
Definition disjoint_dates : relation interval :=
  fun a b => dates a ∩ dates b = ∅.

Definition with_threshold (t : float) (cfg : config) : config :=
  {| MIN_DRAWDOWN_RATE := t; MIN_DAYS := MIN_DAYS cfg;
     MAX_DAYS := MAX_DAYS cfg; TOP_N := TOP_N cfg |}.

(** ** Invocations *)

(** A list with the positions of its elements. *)
Fixpoint tag {A : Type} (i : nat) (l : list A) : list (nat * A) :=
  match l with
  | [] => []
  | x :: l' => (i, x) :: tag (S i) l'
  end.

Definition by_position {A : Type} : relation (nat * A) :=
  fun a b => (a.1 < b.1)%nat.

(** What [list.sort(key=...)] promises, whatever algorithm the run time
    uses: the result is a rearrangement of the list in which the keys
    ascend and elements whose keys do not decide keep the order of their
    positions. *)
Definition stable_sorting {A : Type} (key : A -> float) (l l' : list A) : Prop :=
  exists tagged,
    tagged ≡ₚ tag 0 l /\
    StronglySorted (stable_order (key ∘ snd) by_position) tagged /\
    l' = tagged.*2.


Definition with_top_n (k : Z) (cfg : config) : config :=
  {| MIN_DRAWDOWN_RATE := MIN_DRAWDOWN_RATE cfg; MIN_DAYS := MIN_DAYS cfg;
     MAX_DAYS := MAX_DAYS cfg; TOP_N := k |}.

(** ** File names *)

(** Python strings, as lists of their characters. *)
Definition str : Set := list Ascii.ascii.

Definition lit (s : String.string) : str := String.list_ascii_of_string s.
Arguments lit s%_string.

(** The character [.] *)
Definition dot : Ascii.ascii := Ascii.ascii_of_nat 46.

(** [s.startswith(prefix)] *)
Fixpoint starts_with (prefix s : str) : bool :=
  match prefix, s with
  | [], _ => true
  | _ :: _, [] => false
  | p :: prefix', c :: s' => Ascii.eqb p c && starts_with prefix' s'
  end.

(** The scan of [s.replace(old, new)] for an [old] that is not empty: from
    left to right, an occurrence of [old] is replaced and passed over;
    [skip] counts the characters of a replaced occurrence still to pass. *)
Fixpoint replace_from (old new : str) (skip : nat) (s : str) : str :=
  match s with
  | [] => []
  | c :: s' =>
    match skip with
    | S k => replace_from old new k s'
    | O =>
      if starts_with old s
      then new ++ replace_from old new (length old - 1) s'
      else c :: replace_from old new 0 s'
    end
  end.

(** [s.replace(old, new)]; an empty [old] matches before every character
    and at the end. *)
Definition py_replace (old new s : str) : str :=
  match old with
  | [] => new ++ (s ≫= fun c => c :: new)
  | _ :: _ => replace_from old new 0 s
  end.

(** The name [save_stock_data] writes to, [f'data/{ticker}_{timestamp}.csv'],
    for the timestamp it got from the clock. *)
Definition stock_filename (ticker timestamp : str) : str :=
  lit "data/" ++ ticker ++ lit "_" ++ timestamp ++ lit ".csv".

(** The name the analysis is written to,
    [saved_file.replace('.csv', '_maxdrawdown_analysis.csv')]. *)
Definition analysis_filename (saved_file : str) : str :=
  py_replace (lit ".csv") (lit "_maxdrawdown_analysis.csv") saved_file.

(** ** Example series and configurations *)

Definition series (start : Z) (prices : list float) : DataFrame :=
  zip_with Row (seqZ start (Z.of_nat (length prices))) prices.

(** One window of length 5 falling by a fifth. *)
Definition scenario2 : DataFrame :=
  series 0 [100; 100; 100; 100; 100; 80]%float.

(** Two windows of length 5 that share no date, falling by 15% and 25%. *)
Definition scenario3 : DataFrame :=
  series 0 [100; 100; 100; 100; 100; 85; 100; 100; 100; 100; 100; 75]%float.

Definition config3 : config :=
  {| MIN_DRAWDOWN_RATE := 10%float; MIN_DAYS := 5; MAX_DAYS := 5; TOP_N := 10 |}.

Definition scenario3_milder : interval :=
  {| start_date := 0; end_date := 5; days := 5;
     drawdown_rate := rate 100 85; start_price := 100%float; end_price := 85%float;
     dates := py_set (range 0 6) |}.

Definition scenario3_severe : interval :=
  {| start_date := 6; end_date := 11; days := 5;
     drawdown_rate := rate 100 75; start_price := 100%float; end_price := 75%float;
     dates := py_set (range 6 12) |}.

(** Two windows of length 10, over the dates 0 to 10 and 5 to 15, falling
    by 30% and 28%. *)
Definition scenario4 : DataFrame :=
  series 0 [100; 100; 100; 100; 100; 100; 100; 100; 100; 100; 70;
            100; 100; 100; 100; 72]%float.

Definition config4 : config :=
  {| MIN_DRAWDOWN_RATE := 10%float; MIN_DAYS := 10; MAX_DAYS := 10; TOP_N := 10 |}.

Definition scenario4_severe : interval :=
  {| start_date := 0; end_date := 10; days := 10;
     drawdown_rate := rate 100 70; start_price := 100%float; end_price := 70%float;
     dates := py_set (range 0 11) |}.

Definition scenario4_milder : interval :=
  {| start_date := 5; end_date := 15; days := 10;
     drawdown_rate := rate 100 72; start_price := 100%float; end_price := 72%float;
     dates := py_set (range 5 16) |}.

(** Two overlapping windows of length 2 with the same rate. *)
Definition scenario_tie : DataFrame :=
  series 0 [100; 100; 80; 80]%float.

Definition config_tie : config :=
  {| MIN_DRAWDOWN_RATE := 10%float; MIN_DAYS := 2; MAX_DAYS := 2; TOP_N := 10 |}.

Definition tie_first : interval :=
  {| start_date := 0; end_date := 2; days := 2;
     drawdown_rate := rate 100 80; start_price := 100%float; end_price := 80%float;
     dates := py_set (range 0 3) |}.

Definition tie_second : interval :=
  {| start_date := 1; end_date := 3; days := 2;
     drawdown_rate := rate 100 80; start_price := 100%float; end_price := 80%float;
     dates := py_set (range 1 4) |}.

(** Configurations and a series outside the intended domain. *)
Definition config_no_days : config :=
  {| MIN_DRAWDOWN_RATE := 10%float; MIN_DAYS := 6; MAX_DAYS := 5; TOP_N := 10 |}.

Definition config_top_zero : config :=
  {| MIN_DRAWDOWN_RATE := 10%float; MIN_DAYS := 5; MAX_DAYS := 60; TOP_N := 0 |}.

Definition config_top_negative : config :=
  {| MIN_DRAWDOWN_RATE := 10%float; MIN_DAYS := 5; MAX_DAYS := 60; TOP_N := -1 |}.

Definition config_reaching_back : config :=
  {| MIN_DRAWDOWN_RATE := 10%float; MIN_DAYS := -7; MAX_DAYS := 60; TOP_N := 10 |}.

Definition negative_price : DataFrame :=
  series 0 [100; 100; 100; 100; 100; -80]%float.

(** A series with a missing price. *)
Definition missing_price : DataFrame :=
  series 0 [100; 100; 100; 100; 100; nan; 80]%float.

Definition missing_price_selected : interval :=
  {| start_date := 0; end_date := 6; days := 6;
     drawdown_rate := rate 100 80; start_price := 100%float; end_price := 80%float;
     dates := py_set (range 0 7) |}.

(** * Properties *)

(** ** The order of binary64 numbers *)

Ltac cmp_cases :=
  repeat match goal with
  | |- context [Z.compare ?a ?b] => destruct (Z.compare_spec a b)
  | |- context [Pos.compare_cont Eq ?a ?b] =>
    change (Pos.compare_cont Eq a b) with (Pos.compare a b);
    destruct (Pos.compare_spec a b)
  end.

Ltac sf_cases :=
  unfold SFleb, SFltb, SFeqb, SFcompare;
  repeat match goal with
  | x : spec_float |- _ => destruct x as [[]| []| |[] ? ?]
  end;
  simpl; cmp_cases; simpl; intros; try (reflexivity || discriminate || lia).

Lemma SFleb_trans a b c : SFleb a b = true -> SFleb b c = true -> SFleb a c = true.
Proof. sf_cases. Qed.

Lemma SFleb_refl_l a b : SFleb a b = true -> SFleb a a = true.
Proof. sf_cases. Qed.

Lemma SFleb_refl_r a b : SFleb a b = true -> SFleb b b = true.
Proof. sf_cases. Qed.

Lemma SFleb_total a b :
  SFleb a a = true -> SFleb b b = true -> SFltb b a = false -> SFleb a b = true.
Proof. sf_cases. Qed.

Lemma SFltb_asym a b : SFltb a b = true -> SFltb b a = false.
Proof. sf_cases. Qed.

Lemma SFltb_leb a b : SFltb a b = true -> SFleb a b = true.
Proof. sf_cases. Qed.

Lemma SFleb_not_ltb a b : SFleb a b = true -> SFltb b a = false.
Proof. sf_cases. Qed.

Lemma SFeqb_not_ltb a b : SFeqb a b = true -> SFltb a b = false /\ SFltb b a = false.
Proof. split; revert H; sf_cases. Qed.

Lemma SFleb_opp a b : SFleb a b = true -> SFleb (SFopp b) (SFopp a) = true.
Proof. sf_cases. Qed.

Section float_order.
Local Open Scope float_scope.
Implicit Types x y z : float.

Lemma leb_trans x y z : (x <=? y) = true -> (y <=? z) = true -> (x <=? z) = true.
Proof. rewrite !leb_spec. apply SFleb_trans. Qed.

Lemma leb_is_number_l x y : (x <=? y) = true -> is_number x.
Proof. unfold is_number. rewrite !leb_spec. apply SFleb_refl_l. Qed.

Lemma leb_is_number_r x y : (x <=? y) = true -> is_number y.
Proof. unfold is_number. rewrite !leb_spec. apply SFleb_refl_r. Qed.

Lemma not_ltb_leb x y : is_number x -> is_number y -> (y <? x) = false -> (x <=? y) = true.
Proof. unfold is_number. rewrite !leb_spec, ltb_spec. apply SFleb_total. Qed.

Lemma ltb_asym x y : (x <? y) = true -> (y <? x) = false.
Proof. rewrite !ltb_spec. apply SFltb_asym. Qed.

Lemma ltb_leb x y : (x <? y) = true -> (x <=? y) = true.
Proof. rewrite ltb_spec, leb_spec. apply SFltb_leb. Qed.

Lemma leb_not_ltb x y : (x <=? y) = true -> (y <? x) = false.
Proof. rewrite ltb_spec, leb_spec. apply SFleb_not_ltb. Qed.

Lemma eqb_not_ltb x y : (x =? y) = true -> (x <? y) = false /\( y <? x) = false.
Proof. rewrite FloatAxioms.eqb_spec, !ltb_spec. apply SFeqb_not_ltb. Qed.

Lemma leb_opp x y : (x <=? y) = true -> (- y <=? - x) = true.
Proof. rewrite !leb_spec, !opp_spec. apply SFleb_opp. Qed.
End float_order.

(** ** Positional access, slices and sets *)

Ltac result_simpl :=
  cbn [mbind result_bind mret result_ret fst snd] in *.

Lemma py_getitem_Ok {A : Type} (l : list A) (i : Z) :
  - Z.of_nat (length l) <= i < Z.of_nat (length l) ->
  exists x, py_getitem l i = Ok x.
Proof.
  intros Hi. unfold py_getitem.
  destruct (_ || _) eqn:E.
  { apply orb_true_iff in E. lia. }
  destruct (l !! _) eqn:El; eauto.
  apply lookup_ge_None in El. destruct (Z.ltb_spec i 0); lia.
Qed.

Lemma py_getitem_Raise {A : Type} (l : list A) (i : Z) :
  i < - Z.of_nat (length l) \/ Z.of_nat (length l) <= i ->
  py_getitem l i = Raise IndexError.
Proof.
  intros Hi. unfold py_getitem.
  destruct (_ || _) eqn:E; [done|].
  apply orb_false_iff in E. lia.
Qed.

Lemma py_getitem_Ok_inv {A : Type} (l : list A) (i : Z) (x : A) :
  py_getitem l i = Ok x ->
  - Z.of_nat (length l) <= i < Z.of_nat (length l).
Proof.
  intros H.
  destruct (decide (i < - Z.of_nat (length l) \/ Z.of_nat (length l) <= i)) as [Hi|Hi].
  - rewrite py_getitem_Raise in H by done. done.
  - lia.
Qed.

Lemma py_getitem_map {A B : Type} (f : A -> B) (l : list A) (i : Z) :
  py_getitem (map f l) i =
  match py_getitem l i with Ok x => Ok (f x) | Raise e => Raise e end.
Proof.
  unfold py_getitem. rewrite length_map.
  destruct (_ || _); [done|].
  change (map f l) with (f <$> l). rewrite list_lookup_fmap.
  by destruct (l !! _).
Qed.

Lemma intersects_empty (a : gset Z) : intersects a ∅ = false.
Proof. apply bool_decide_eq_false. intros H. apply H. apply (right_absorb_L ∅ (∩)). Qed.

Lemma intersects_false (a b : gset Z) : intersects a b = false <-> a ∩ b = ∅.
Proof.
  unfold intersects. rewrite bool_decide_eq_false. split.
  - intros H. destruct (decide (a ∩ b = ∅)) as [E|E]; [done|by destruct H].
  - intros H1 H2. done.
Qed.

Lemma intersects_true (a b : gset Z) : intersects a b = true <-> a ∩ b <> ∅.
Proof. unfold intersects. by rewrite bool_decide_eq_true. Qed.

Lemma intersects_union (a b c : gset Z) :
  intersects a (b ∪ c) = intersects a b || intersects a c.
Proof.
  apply eq_true_iff_eq. rewrite orb_true_iff, !intersects_true. split.
  - intros [x Hx]%set_choose_L.
    apply elem_of_intersection in Hx as [Ha [Hb|Hc]%elem_of_union].
    + left. intros He. apply (not_elem_of_empty (C:=gset Z) x). rewrite <- He.
      by apply elem_of_intersection.
    + right. intros He. apply (not_elem_of_empty (C:=gset Z) x). rewrite <- He.
      by apply elem_of_intersection.
  - intros [[x Hx]%set_choose_L|[x Hx]%set_choose_L] He;
      apply (not_elem_of_empty (C:=gset Z) x); rewrite <- He;
      apply elem_of_intersection in Hx as [Ha Hx];
      apply elem_of_intersection; (split; [done|]);
      apply elem_of_union; auto.
Qed.

(** ** The result monad *)

Lemma mapM_result_app {A B : Type} (f : A -> result B) (l1 l2 : list A) (r1 r2 : list B) :
  mapM_result f l1 = Ok r1 -> mapM_result f l2 = Ok r2 ->
  mapM_result f (l1 ++ l2) = Ok (r1 ++ r2).
Proof.
  revert r1. induction l1 as [|x l1 IH]; intros r1 H1 H2; simpl in *.
  - by simplify_eq.
  - destruct (f x) as [y|]; [|done]. result_simpl.
    destruct (mapM_result f l1) as [ys|] eqn:E; [|done]. result_simpl.
    simplify_eq. by rewrite (IH ys eq_refl H2).
Qed.

Lemma mapM_result_lookup {A B : Type} (f : A -> result B) (l : list A) (r : list B) :
  mapM_result f l = Ok r ->
  length r = length l /\
  forall i y, r !! i = Some y <-> exists x, l !! i = Some x /\ f x = Ok y.
Proof.
  revert r. induction l as [|x l IH]; intros r H; simpl in *.
  - simplify_eq. split; [done|]. intros i y. split; [done|]. by intros (?&?&?).
  - destruct (f x) as [y|] eqn:Ex; [|done]. result_simpl.
    destruct (mapM_result f l) as [ys|] eqn:E; [|done]. result_simpl.
    simplify_eq. destruct (IH ys eq_refl) as [Hl Hi]. split; [simpl; lia|].
    intros [|i] z; simpl.
    + split.
      * intros [= <-]. eauto.
      * intros (x0 & [= <-] & Hx0). congruence.
    + apply Hi.
Qed.

Lemma mapM_result_elem_of {A B : Type} (f : A -> result B) (l : list A) (r : list B) :
  mapM_result f l = Ok r ->
  forall y, y ∈ r <-> exists x, x ∈ l /\ f x = Ok y.
Proof.
  intros H y. destruct (mapM_result_lookup f l r H) as [_ Hi].
  rewrite list_elem_of_lookup. split.
  - intros [i Hy]. apply Hi in Hy as (x&Hx&Hf). exists x. split; [|done].
    apply list_elem_of_lookup. eauto.
  - intros (x&Hx&Hf). apply list_elem_of_lookup in Hx as [i Hx].
    exists i. apply Hi. eauto.
Qed.

(** ** The scan visits every window and keeps the qualifying ones *)

Lemma window_rate_Ok (data : DataFrame) (s d : Z) (sp ep : float) :
  py_getitem (Close data) s = Ok sp ->
  py_getitem (Close data) (s + d) = Ok ep ->
  window_rate data (s, d) = Ok (rate sp ep).
Proof. unfold window_rate. simpl. intros -> ->. done. Qed.

Lemma index_getitem_Ok (data : DataFrame) (i : Z) (p : float) :
  py_getitem (Close data) i = Ok p -> exists t, py_getitem (index data) i = Ok t.
Proof.
  unfold Close, index. rewrite !py_getitem_map.
  destruct (py_getitem data i); [eauto|done].
Qed.

Lemma candidate_Ok (data : DataFrame) (s d : Z) (sp ep : float) (sd ed : Z) :
  py_getitem (Close data) s = Ok sp ->
  py_getitem (Close data) (s + d) = Ok ep ->
  py_getitem (index data) s = Ok sd ->
  py_getitem (index data) (s + d) = Ok ed ->
  candidate data (s, d) =
  Ok {| start_date := sd; end_date := ed; days := d;
        drawdown_rate := rate sp ep; start_price := sp; end_price := ep;
        dates := py_set (py_slice (index data) s (s + d + 1)) |}.
Proof. unfold candidate. simpl. intros -> -> -> ->. done. Qed.

Lemma scan_days_spec (cfg : config) (data : DataFrame) (s : Z) (ds : list Z)
    (acc l : list interval) :
  scan_days cfg data ∅ s ds acc = Ok l ->
  exists l',
    l = acc ++ l' /\
    mapM_result (candidate data)
      (List.filter (qualifies cfg data) (visited (len data) s ds)) = Ok l'.
Proof.
  revert acc. induction ds as [|d ds IH]; intros acc H; simpl in H |- *.
  { exists []. rewrite app_nil_r. by simplify_eq. }
  destruct (len data <=? s + d) eqn:Hb.
  { exists []. rewrite app_nil_r. by simplify_eq. }
  rewrite intersects_empty in H.
  destruct (py_getitem (Close data) s) as [sp|] eqn:Hsp; [|done].
  destruct (py_getitem (Close data) (s + d)) as [ep|] eqn:Hep; [|done].
  result_simpl.
  assert (Hq : qualifies cfg data (s, d)
               = (rate sp ep <=? - MIN_DRAWDOWN_RATE cfg)%float).
  { unfold qualifies. by rewrite (window_rate_Ok data s d sp ep). }
  cbn [List.filter]. rewrite Hq.
  destruct (rate sp ep <=? - MIN_DRAWDOWN_RATE cfg)%float.
  - destruct (index_getitem_Ok data s sp Hsp) as [sd Hsd].
    destruct (index_getitem_Ok data (s + d) ep Hep) as [ed Hed].
    rewrite Hsd, Hed in H. result_simpl.
    apply IH in H as (l' & -> & Hl').
    eexists. split; [by rewrite <- app_assoc|].
    cbn [mapM_result].
    rewrite (candidate_Ok data s d sp ep sd ed) by done.
    result_simpl. by rewrite Hl'.
  - by apply IH.
Qed.

Lemma scan_starts_spec (cfg : config) (data : DataFrame) (ss : list Z)
    (acc l : list interval) :
  scan_starts cfg data ∅ ss acc = Ok l ->
  exists l',
    l = acc ++ l' /\
    mapM_result (candidate data)
      (List.filter (qualifies cfg data)
         (ss ≫= fun s =>
            visited (len data) s (range (MIN_DAYS cfg) (MAX_DAYS cfg + 1)))) = Ok l'.
Proof.
  revert acc. induction ss as [|s ss IH]; intros acc H; simpl in H |- *.
  { exists []. rewrite app_nil_r. by simplify_eq. }
  destruct (scan_days _ _ _ _ _ _) as [acc'|] eqn:Hd; [|done]. result_simpl.
  apply scan_days_spec in Hd as (l1 & -> & H1).
  apply IH in H as (l2 & -> & H2).
  exists (l1 ++ l2). split; [by rewrite app_assoc|].
  rewrite List.filter_app. by apply mapM_result_app.
Qed.

(** What the scan returns is the list of candidates of the qualifying
    windows, in the order of the loops. *)
Lemma scan_spec (cfg : config) (data : DataFrame) (l : list interval) :
  scan cfg data ∅ = Ok l ->
  mapM_result (candidate data) (emitted cfg data) = Ok l.
Proof.
  intros H. apply scan_starts_spec in H as (l' & -> & H). done.
Qed.

(** ** Which windows are visited *)

Lemma elem_of_range (lo hi x : Z) : x ∈ range lo hi <-> lo <= x < hi.
Proof. unfold range. rewrite elem_of_seqZ. lia. Qed.

Lemma range_nil (lo hi : Z) : hi <= lo -> range lo hi = [].
Proof. intros. apply seqZ_nil. lia. Qed.

Lemma range_cons (lo hi : Z) : lo < hi -> range lo hi = lo :: range (lo + 1) hi.
Proof.
  intros. unfold range. rewrite seqZ_cons by lia.
  f_equal. f_equal; lia.
Qed.

Lemma range_sorted (lo hi : Z) : StronglySorted Z.lt (range lo hi).
Proof.
  remember (Z.to_nat (hi - lo)) as k eqn:Hk.
  revert lo Hk. induction k as [|k IH]; intros lo Hk.
  - rewrite range_nil by lia. constructor.
  - rewrite range_cons by lia. constructor.
    + apply IH. lia.
    + apply Forall_forall. intros x Hx. apply elem_of_range in Hx. lia.
Qed.

Lemma elem_of_visited (n s : Z) (ds : list Z) (w : Z * Z) :
  StronglySorted Z.lt ds ->
  w ∈ visited n s ds <-> w.1 = s /\ w.2 ∈ ds /\ s + w.2 < n.
Proof.
  induction 1 as [|d ds Hs IH Hd]; simpl.
  { rewrite elem_of_nil. split; [done|]. intros (_ & Hw & _). by apply elem_of_nil in Hw. }
  rewrite Forall_forall in Hd.
  destruct (Z.leb_spec n (s + d)).
  - rewrite elem_of_nil. split; [done|]. intros (_ & Hw & Hn).
    apply elem_of_cons in Hw as [Hw|Hw]; [lia|]. apply Hd in Hw. lia.
  - rewrite !elem_of_cons, IH. destruct w as [s' d']; simpl. split.
    + intros [[= -> ->]|(-> & H' & Hn)]; auto.
    + intros (-> & [->|H'] & Hn); auto.
Qed.

Lemma elem_of_windows (cfg : config) (data : DataFrame) (s d : Z) :
  (s, d) ∈ windows cfg data <->
  0 <= s < len data /\ MIN_DAYS cfg <= d <= MAX_DAYS cfg /\ s + d < len data.
Proof.
  unfold windows. rewrite list_elem_of_bind. split.
  - intros (s' & Hv & Hs). apply elem_of_visited in Hv; [|apply range_sorted].
    simpl in Hv. destruct Hv as (-> & Hd & Hn).
    apply elem_of_range in Hs, Hd. lia.
  - intros (Hs & Hd & Hn). exists s. split.
    + apply elem_of_visited; [apply range_sorted|]. simpl.
      rewrite elem_of_range. lia.
    + apply elem_of_range. lia.
Qed.

Lemma elem_of_emitted (cfg : config) (data : DataFrame) (w : Z * Z) :
  w ∈ emitted cfg data <-> w ∈ windows cfg data /\ qualifies cfg data w = true.
Proof. unfold emitted. rewrite !list_elem_of_In. apply filter_In. Qed.

Lemma qualifies_true (cfg : config) (data : DataFrame) (w : Z * Z) :
  qualifies cfg data w = true <->
  exists sp ep,
    py_getitem (Close data) w.1 = Ok sp /\
    py_getitem (Close data) (w.1 + w.2) = Ok ep /\
    (rate sp ep <=? - MIN_DRAWDOWN_RATE cfg)%float = true.
Proof.
  unfold qualifies, window_rate.
  destruct (py_getitem (Close data) w.1) as [sp|]; result_simpl.
  2:{ split; [done|]. by intros (?&?&?&?). }
  destruct (py_getitem (Close data) (w.1 + w.2)) as [ep|]; result_simpl.
  2:{ split; [done|]. by intros (?&?&?&?&?). }
  split; [eauto|]. by intros (?&?&[= <-]&[= <-]&?).
Qed.

(** ** When the scan returns *)

Lemma Close_length (data : DataFrame) : Z.of_nat (length (Close data)) = len data.
Proof. unfold Close, len. by rewrite length_map. Qed.

Lemma index_length (data : DataFrame) : Z.of_nat (length (index data)) = len data.
Proof. unfold index, len. by rewrite length_map. Qed.

Lemma scan_days_total (cfg : config) (data : DataFrame) (used : gset Z) (s : Z)
    (ds : list Z) (acc : list interval) :
  0 <= s < len data ->
  Forall (fun d => - len data <= s + d) ds ->
  exists l, scan_days cfg data used s ds acc = Ok l.
Proof.
  intros Hs Hds. revert acc. induction Hds as [|d ds Hd _ IH]; intros acc; simpl.
  { eauto. }
  destruct (Z.leb_spec (len data) (s + d)); [eauto|].
  destruct (intersects _ _); [apply IH|].
  destruct (py_getitem_Ok (Close data) s) as [sp ->]; [rewrite Close_length; lia|].
  destruct (py_getitem_Ok (Close data) (s + d)) as [ep ->]; [rewrite Close_length; lia|].
  result_simpl. destruct (_ <=? _)%float; [|apply IH].
  destruct (py_getitem_Ok (index data) s) as [sd ->]; [rewrite index_length; lia|].
  destruct (py_getitem_Ok (index data) (s + d)) as [ed ->]; [rewrite index_length; lia|].
  result_simpl. apply IH.
Qed.

Lemma scan_starts_total (cfg : config) (data : DataFrame) (used : gset Z)
    (ss : list Z) (acc : list interval) :
  Forall (fun s => 0 <= s < len data) ss ->
  - len data <= MIN_DAYS cfg ->
  exists l, scan_starts cfg data used ss acc = Ok l.
Proof.
  intros Hss Hmin. revert acc. induction Hss as [|s ss Hs _ IH]; intros acc; simpl.
  { eauto. }
  destruct (scan_days_total cfg data used s
              (range (MIN_DAYS cfg) (MAX_DAYS cfg + 1)) acc) as [acc' ->]; [done| |].
  - apply Forall_forall. intros d Hd. apply elem_of_range in Hd. lia.
  - result_simpl. apply IH.
Qed.

(** The scan returns whenever no window length reaches back beyond the
    start of the series, whatever the prices are. *)
Lemma scan_total (cfg : config) (data : DataFrame) (used : gset Z) :
  - len data <= MIN_DAYS cfg -> exists l, scan cfg data used = Ok l.
Proof.
  intros. apply scan_starts_total; [|done].
  apply Forall_forall. intros s Hs. apply elem_of_range in Hs. lia.
Qed.

Lemma scan_starts_no_days (cfg : config) (data : DataFrame) (used : gset Z)
    (ss : list Z) (acc : list interval) :
  MAX_DAYS cfg < MIN_DAYS cfg -> scan_starts cfg data used ss acc = Ok acc.
Proof.
  intros. induction ss as [|s ss IH]; simpl; [done|].
  rewrite range_nil by lia. simpl. done.
Qed.

(** With an empty range of window lengths the scan finds nothing. *)
Lemma scan_no_days (cfg : config) (data : DataFrame) (used : gset Z) :
  MAX_DAYS cfg < MIN_DAYS cfg -> scan cfg data used = Ok [].
Proof. apply scan_starts_no_days. Qed.

(** A window length that reaches back beyond the start of a series makes
    the first price lookup fail. *)
Lemma scan_raises (cfg : config) (data : DataFrame) :
  0 < len data -> MIN_DAYS cfg <= MAX_DAYS cfg -> MIN_DAYS cfg < - len data ->
  scan cfg data ∅ = Raise IndexError.
Proof.
  intros Hn Hle Hlt. unfold scan.
  rewrite (range_cons 0) by lia. cbn [scan_starts].
  rewrite (range_cons (MIN_DAYS cfg)) by lia. cbn [scan_days].
  destruct (Z.leb_spec (len data) (0 + MIN_DAYS cfg)); [lia|].
  rewrite intersects_empty.
  destruct (py_getitem_Ok (Close data) 0) as [sp ->]; [rewrite Close_length; lia|].
  rewrite (py_getitem_Raise (Close data) (0 + MIN_DAYS cfg))
    by (rewrite Close_length; lia).
  done.
Qed.

Lemma scan_Raise_iff (cfg : config) (data : DataFrame) :
  MIN_DAYS cfg <= MAX_DAYS cfg ->
  scan cfg data ∅ = Raise IndexError <->
  0 < len data /\ MIN_DAYS cfg < - len data.
Proof.
  intros Hle. split.
  - intros Hr.
    destruct (decide (0 < len data /\ MIN_DAYS cfg < - len data)) as [|Hn]; [done|].
    destruct (decide (len data = 0)) as [H0|H0].
    + unfold scan in Hr. rewrite H0, range_nil in Hr by lia. done.
    + destruct (scan_total cfg data ∅) as [l Hl]; [unfold len in *; lia|].
      congruence.
  - intros [Hn Hlt]. by apply scan_raises.
Qed.

Example scenario2_emitted : emitted default_config scenario2 = [(0, 5)].
Proof. vm_compute. reflexivity. Qed.

Example scenario2_scan :
  scan default_config scenario2 ∅ = mapM_result (candidate scenario2) [(0, 5)].
Proof. vm_compute. reflexivity. Qed.

(** C1. For a configuration with [MIN_DAYS <= MAX_DAYS] the scan appends a
    candidate for the pair [(start_index, d)], with [d] between [MIN_DAYS]
    and [MAX_DAYS] and [start_index + d < n], exactly when the rate
    [(end_price / start_price - 1) * 100] of the pair is at most
    [- MIN_DRAWDOWN_RATE]: what it returns is the list of the candidates of
    these pairs, in the order of the loops.  The overlap test of the loop
    never fires, the set it reads being empty; overlapping pairs are both
    kept.  The scan returns unless the series is not empty and
    [MIN_DAYS < - n], where the first price lookup raises. *)
Theorem scan_emits_iff (cfg : config) (data : DataFrame) :
  MIN_DAYS cfg <= MAX_DAYS cfg ->
  (scan cfg data ∅ = Raise IndexError <->
   0 < len data /\ MIN_DAYS cfg < - len data) /\
  (forall current_dates, intersects current_dates ∅ = false) /\
  forall drawdown_intervals,
    scan cfg data ∅ = Ok drawdown_intervals ->
    mapM_result (candidate data) (emitted cfg data) = Ok drawdown_intervals /\
    forall start_index d,
      (start_index, d) ∈ emitted cfg data <->
      (0 <= start_index < len data /\
       MIN_DAYS cfg <= d <= MAX_DAYS cfg /\
       start_index + d < len data) /\
      exists start_price end_price,
        py_getitem (Close data) start_index = Ok start_price /\
        py_getitem (Close data) (start_index + d) = Ok end_price /\
        (rate start_price end_price <=? - MIN_DRAWDOWN_RATE cfg)%float = true.
Proof.
  intros Hle. split; [by apply scan_Raise_iff|].
  split; [apply intersects_empty|].
  intros l Hl. split; [by apply scan_spec|].
  intros s d. rewrite elem_of_emitted, elem_of_windows, qualifies_true. done.
Qed.

Lemma scan_emits_iff_witness :
  MIN_DAYS default_config <= MAX_DAYS default_config /\
  (scan default_config scenario2 ∅ = Raise IndexError <->
   0 < len scenario2 /\ MIN_DAYS default_config < - len scenario2).
Proof.
  split; [simpl; lia|].
  apply (scan_emits_iff default_config scenario2). simpl. lia.
Defined.

(** ** The sort returns a stably sorted permutation *)

Section sorting.
Context {A : Type} (key : A -> float).
Implicit Types (x y : A) (l : list A) (R : relation A).

Lemma insert_by_perm x l : insert_by key x l ≡ₚ x :: l.
Proof.
  induction l as [|y l IH]; simpl; [done|].
  destruct (_ <? _)%float; [|done].
  rewrite IH. apply Permutation_swap.
Qed.

Lemma sort_by_perm l : sort_by key l ≡ₚ l.
Proof.
  induction l as [|x l IH]; simpl; [done|].
  rewrite insert_by_perm. by rewrite IH.
Qed.

Lemma sort_by_length l : length (sort_by key l) = length l.
Proof. by rewrite sort_by_perm. Qed.

Lemma elem_of_sort_by x l : x ∈ sort_by key l <-> x ∈ l.
Proof. by rewrite sort_by_perm. Qed.

Lemma insert_by_sorted R x l :
  is_number (key x) ->
  Forall (fun y => is_number (key y)) l ->
  Forall (R x) l ->
  StronglySorted (stable_order key R) l ->
  StronglySorted (stable_order key R) (insert_by key x l).
Proof.
  intros Hx Hnum HR Hs.
  induction Hs as [|y l Hs IH Hy]; simpl.
  { repeat constructor. }
  apply Forall_cons in Hnum as [Hny Hnum]. apply Forall_cons in HR as [HRy HR].
  destruct (key y <? key x)%float eqn:Hlt.
  - constructor; [by apply IH|].
    rewrite insert_by_perm. constructor; [|done].
    split; [by apply ltb_leb|by left].
  - assert (Hxy : (key x <=? key y)%float = true) by by apply not_ltb_leb.
    constructor; [by constructor|].
    constructor; [split; [done|by right]|].
    rewrite Forall_forall in Hy, HR |- *. intros z Hz. split.
    + destruct (Hy z Hz) as [Hyz _]. by apply leb_trans with (key y).
    + right. by apply HR.
Qed.

Lemma sort_by_sorted R l :
  Forall (fun y => is_number (key y)) l ->
  StronglySorted R l ->
  StronglySorted (stable_order key R) (sort_by key l).
Proof.
  intros Hnum Hs. induction Hs as [|x l Hs IH Hx]; simpl; [constructor|].
  apply Forall_cons in Hnum as [Hnx Hnum].
  apply insert_by_sorted; [done| | |by apply IH].
  - by rewrite sort_by_perm.
  - by rewrite sort_by_perm.
Qed.

(** Every stably sorted permutation of a list is the list [sort_by]
    computes, so any stable sort that compares by [<] returns it. *)
Lemma stable_sort_unique R l l' :
  (forall x y, R x y -> R y x -> x = y) ->
  Forall (fun y => is_number (key y)) l ->
  StronglySorted R l ->
  l' ≡ₚ l ->
  StronglySorted (stable_order key R) l' ->
  l' = sort_by key l.
Proof.
  intros HR Hnum Hs Hp Hs'.
  apply (StronglySorted_unique_strong (stable_order key R)); [|done| |].
  - intros x y _ _ [Hxy [Hlt|Hr]] [Hyx [Hlt'|Hr']].
    + by rewrite (ltb_asym _ _ Hlt) in Hlt'.
    + by rewrite (leb_not_ltb _ _ Hyx) in Hlt.
    + by rewrite (leb_not_ltb _ _ Hxy) in Hlt'.
    + by apply HR.
  - by apply sort_by_sorted.
  - by rewrite sort_by_perm.
Qed.

End sorting.

Lemma StronglySorted_True {A : Type} (l : list A) :
  StronglySorted (fun _ _ => True) l.
Proof. induction l; constructor; [done|]. by apply Forall_forall. Qed.

Lemma StronglySorted_impl {A : Type} (R1 R2 : relation A) (l : list A) :
  (forall a b, R1 a b -> R2 a b) -> StronglySorted R1 l -> StronglySorted R2 l.
Proof.
  intros HR. induction 1 as [|x l Hs IH Hx]; constructor; [done|].
  eapply Forall_impl; eauto.
Qed.

Lemma StronglySorted_sublist {A : Type} (R : relation A) (l1 l2 : list A) :
  l1 `sublist_of` l2 -> StronglySorted R l2 -> StronglySorted R l1.
Proof.
  induction 1 as [|x l1 l2 Hsub IH|x l1 l2 Hsub IH]; intros Hs.
  - constructor.
  - apply StronglySorted_cons in Hs as [Hx Hs]. constructor; [by apply IH|].
    rewrite Forall_forall in Hx |- *. intros y Hy. apply Hx.
    by eapply elem_of_sublist.
  - apply StronglySorted_cons in Hs as [_ Hs]. by apply IH.
Qed.

Lemma StronglySorted_lookup {A : Type} (R : relation A) (l : list A)
    (i j : nat) (a b : A) :
  StronglySorted R l -> (i < j)%nat -> l !! i = Some a -> l !! j = Some b -> R a b.
Proof.
  intros Hs. revert i j. induction Hs as [|x l Hs IH Hx]; intros i j Hij Hi Hj.
  { done. }
  destruct j as [|j]; [lia|]. destruct i as [|i]; simpl in *.
  - simplify_eq. rewrite Forall_forall in Hx. apply Hx.
    by eapply list_elem_of_lookup_2.
  - apply (IH i j); [lia|done..].
Qed.

(** ** The selection loop *)

Lemma is_overlap_false (current_dates : gset Z) (selected : list interval) :
  is_overlap current_dates selected = false <->
  forall s, s ∈ selected -> dates s ∩ current_dates = ∅.
Proof.
  unfold is_overlap. induction selected as [|x l IH]; simpl.
  { split; [|done]. intros _ s Hs. by apply elem_of_nil in Hs. }
  rewrite orb_false_iff, IH, intersects_false. split.
  - intros [Hx Hl] s Hs. apply elem_of_cons in Hs as [->|Hs]; [|by apply Hl].
    by rewrite (comm_L (∩)).
  - intros H. split.
    + rewrite (comm_L (∩)). apply H. by left.
    + intros s Hs. apply H. by right.
Qed.

(** The selection appends to the list it starts from a subsequence of the
    candidates, disjoint from one another and from what was there, and
    appends nothing once the list has [TOP_N] members. *)
Lemma select_spec (cfg : config) (l selected : list interval) (used : gset Z) :
  exists l',
    (select cfg l selected used).1 = selected ++ l' /\
    l' `sublist_of` l /\
    (StronglySorted disjoint_dates selected ->
     StronglySorted disjoint_dates (selected ++ l')) /\
    Z.of_nat (length (selected ++ l'))
    <= Z.max (Z.of_nat (length selected)) (TOP_N cfg).
Proof.
  revert selected used. induction l as [|c l IH]; intros selected used; simpl.
  { exists []. rewrite app_nil_r. repeat split; [done..|lia]. }
  destruct (Z.leb_spec (TOP_N cfg) (Z.of_nat (length selected))).
  { exists []. rewrite app_nil_r. repeat split; [apply sublist_nil_l|done|lia]. }
  destruct (is_overlap (dates c) selected) eqn:Ho.
  - destruct (IH selected used) as (l' & -> & Hsub & Hdis & Hlen).
    exists l'. repeat split; [by apply sublist_cons|done..].
  - destruct (IH (selected ++ [c]) (used ∪ dates c)) as (l' & -> & Hsub & Hdis & Hlen).
    exists (c :: l'). rewrite <- app_assoc in *. simpl in *.
    repeat split; [by apply sublist_skip| |].
    + intros Hs. apply Hdis. apply StronglySorted_app_2; [|done|repeat constructor].
      intros x1 x2 Hx1 Hx2. apply list_elem_of_singleton in Hx2 as ->.
      rewrite is_overlap_false in Ho. by apply Ho.
    + rewrite !length_app in *. simpl in *. lia.
Qed.

(** The set of used dates is the union of the date sets selected. *)
Lemma select_used_dates (cfg : config) (l selected : list interval) (used : gset Z) :
  used = ⋃ (dates <$> selected) ->
  (select cfg l selected used).2 = ⋃ (dates <$> (select cfg l selected used).1).
Proof.
  revert selected used. induction l as [|c l IH]; intros selected used Hu; simpl.
  { done. }
  destruct (_ <=? _); [done|].
  destruct (is_overlap _ _); [by apply IH|].
  apply IH. rewrite fmap_app, union_list_app_L. simpl.
  rewrite (right_id_L ∅ (∪)). by rewrite Hu.
Qed.

(** Testing a date set against each selected interval is testing it
    against the set of used dates. *)
Lemma is_overlap_union (current_dates : gset Z) (selected : list interval) :
  is_overlap current_dates selected = intersects current_dates (⋃ (dates <$> selected)).
Proof.
  unfold is_overlap. induction selected as [|x l IH]; simpl.
  { by rewrite intersects_empty. }
  rewrite IH. symmetry. apply intersects_union.
Qed.

(** ** From the result back to the scan *)

(** The function returns whenever the scan does. *)
Lemma find_total (cfg : config) (data : DataFrame) :
  - len data <= MIN_DAYS cfg ->
  exists selected, find_top_drawdown_intervals cfg data = Ok selected.
Proof.
  intros Hmin. destruct (scan_total cfg data ∅ Hmin) as [l Hl].
  unfold find_top_drawdown_intervals. rewrite Hl. result_simpl. eauto.
Qed.


Lemma find_inv (cfg : config) (data : DataFrame) (selected : list interval) :
  find_top_drawdown_intervals cfg data = Ok selected ->
  exists drawdown_intervals,
    scan cfg data ∅ = Ok drawdown_intervals /\
    selected = (select cfg (sort_by drawdown_rate drawdown_intervals) [] ∅).1.
Proof.
  unfold find_top_drawdown_intervals.
  destruct (scan cfg data ∅) as [l|]; [|done]. result_simpl.
  intros [= <-]. eauto.
Qed.

Lemma find_sublist (cfg : config) (data : DataFrame) (selected : list interval) :
  find_top_drawdown_intervals cfg data = Ok selected ->
  exists drawdown_intervals,
    scan cfg data ∅ = Ok drawdown_intervals /\
    selected `sublist_of` sort_by drawdown_rate drawdown_intervals.
Proof.
  intros (l & Hl & ->)%find_inv. exists l. split; [done|].
  destruct (select_spec cfg (sort_by drawdown_rate l) [] ∅) as (l' & -> & Hsub & _).
  done.
Qed.

Lemma candidate_inv (data : DataFrame) (w : Z * Z) (c : interval) :
  candidate data w = Ok c ->
  days c = w.2 /\
  window_rate data w = Ok (drawdown_rate c) /\
  dates c = py_set (py_slice (index data) w.1 (w.1 + w.2 + 1)) /\
  py_getitem (index data) w.1 = Ok (start_date c) /\
  py_getitem (index data) (w.1 + w.2) = Ok (end_date c) /\
  py_getitem (Close data) w.1 = Ok (start_price c) /\
  py_getitem (Close data) (w.1 + w.2) = Ok (end_price c) /\
  drawdown_rate c = rate (start_price c) (end_price c).
Proof.
  unfold candidate, window_rate.
  destruct (py_getitem (Close data) w.1) as [sp|]; [|done].
  destruct (py_getitem (Close data) (w.1 + w.2)) as [ep|]; [|done].
  destruct (py_getitem (index data) w.1) as [sd|]; [|done].
  destruct (py_getitem (index data) (w.1 + w.2)) as [ed|]; [|done].
  result_simpl. intros [= <-]. simpl. done.
Qed.

(** Every candidate of the scan is the candidate of a qualifying window. *)
Lemma scan_elem_of (cfg : config) (data : DataFrame) (l : list interval) (c : interval) :
  scan cfg data ∅ = Ok l -> c ∈ l ->
  exists w, w ∈ emitted cfg data /\ candidate data w = Ok c.
Proof.
  intros Hl Hc. apply scan_spec in Hl.
  by apply (mapM_result_elem_of _ _ _ Hl).
Qed.

Lemma find_elem_of (cfg : config) (data : DataFrame) (selected : list interval)
    (c : interval) :
  find_top_drawdown_intervals cfg data = Ok selected -> c ∈ selected ->
  exists w, w ∈ emitted cfg data /\ candidate data w = Ok c.
Proof.
  intros (l & Hl & Hsub)%find_sublist Hc.
  apply (scan_elem_of cfg data l c Hl).
  apply (elem_of_sort_by drawdown_rate). by eapply elem_of_sublist.
Qed.

Lemma emitted_rate (cfg : config) (data : DataFrame) (w : Z * Z) (c : interval) :
  w ∈ emitted cfg data -> candidate data w = Ok c ->
  (drawdown_rate c <=? - MIN_DRAWDOWN_RATE cfg)%float = true.
Proof.
  intros [_ Hq]%elem_of_emitted (_ & Hr & _)%candidate_inv.
  unfold qualifies in Hq. by rewrite Hr in Hq.
Qed.

Lemma scan_is_number (cfg : config) (data : DataFrame) (l : list interval) :
  scan cfg data ∅ = Ok l -> Forall (fun c => is_number (drawdown_rate c)) l.
Proof.
  intros Hl. apply Forall_forall. intros c Hc.
  destruct (scan_elem_of cfg data l c Hl Hc) as (w & Hw & Hcw).
  eapply leb_is_number_l. by eapply emitted_rate.
Qed.

(** ** The function on the test series *)

Example scenario3_scan :
  scan config3 scenario3 ∅ = Ok [scenario3_milder; scenario3_severe].
Proof. vm_compute. reflexivity. Qed.

Example scenario3_selected :
  find_top_drawdown_intervals config3 scenario3
  = Ok [scenario3_severe; scenario3_milder].
Proof. vm_compute. reflexivity. Qed.

Example scenario4_scan :
  scan config4 scenario4 ∅ = Ok [scenario4_severe; scenario4_milder].
Proof. vm_compute. reflexivity. Qed.

Example scenario4_selected :
  find_top_drawdown_intervals config4 scenario4 = Ok [scenario4_severe].
Proof. vm_compute. reflexivity. Qed.



Example reaching_back_raises :
  find_top_drawdown_intervals config_reaching_back scenario2 = Raise IndexError.
Proof. vm_compute. reflexivity. Qed.

Example negative_price_selected :
  find_top_drawdown_intervals default_config negative_price
  = mapM_result (candidate negative_price) [(0, 5)]
  /\ (rate 100 (-80) =? -180)%float = true.
Proof. vm_compute. split; reflexivity. Qed.

(** ** The selected intervals *)

(** C2. Any two distinct intervals of the returned list have disjoint date
    sets; the date set of an interval is the set of the index entries from
    the position of its start date to the position of its end date,
    inclusive. *)
Theorem selected_disjoint (cfg : config) (data : DataFrame) (selected : list interval) :
  find_top_drawdown_intervals cfg data = Ok selected ->
  (forall i j a b,
     i <> j -> selected !! i = Some a -> selected !! j = Some b ->
     dates a ∩ dates b = ∅) /\
  (forall a, a ∈ selected ->
     exists start_index end_index,
       py_getitem (index data) start_index = Ok (start_date a) /\
       py_getitem (index data) end_index = Ok (end_date a) /\
       dates a = py_set (py_slice (index data) start_index (end_index + 1))).
Proof.
  intros Hf. split.
  - apply find_inv in Hf as (l & _ & ->).
    destruct (select_spec cfg (sort_by drawdown_rate l) [] ∅) as (l' & -> & _ & Hdis & _).
    specialize (Hdis (SSorted_nil _)). simpl in *.
    intros i j a b Hij Ha Hb.
    destruct (decide (i < j)%nat).
    + by apply (StronglySorted_lookup disjoint_dates l' i j a b).
    + rewrite (comm_L (∩)).
      apply (StronglySorted_lookup disjoint_dates l' j i b a); [done|lia|done..].
  - intros a Ha. destruct (find_elem_of cfg data selected a Hf Ha) as (w & _ & Hc).
    apply candidate_inv in Hc as (_ & _ & Hd & Hs & He & _).
    exists w.1, (w.1 + w.2). done.
Qed.

Lemma selected_disjoint_witness :
  find_top_drawdown_intervals config3 scenario3
  = Ok [scenario3_severe; scenario3_milder] /\
  forall i j a b,
    i <> j ->
    [scenario3_severe; scenario3_milder] !! i = Some a ->
    [scenario3_severe; scenario3_milder] !! j = Some b ->
    dates a ∩ dates b = ∅.
Proof.
  split; [vm_compute; reflexivity|].
  apply (selected_disjoint config3 scenario3). vm_compute. reflexivity.
Defined.

Lemma sort_by_ascending (cfg : config) (data : DataFrame) (l : list interval) :
  scan cfg data ∅ = Ok l ->
  StronglySorted
    (fun a b => (drawdown_rate a <=? drawdown_rate b)%float = true)
    (sort_by drawdown_rate l).
Proof.
  intros Hl.
  apply (StronglySorted_impl (stable_order drawdown_rate (fun _ _ => True))).
  { by intros a b [H _]. }
  apply sort_by_sorted; [by eapply scan_is_number|apply StronglySorted_True].
Qed.

(** C3. The returned list ascends by drawdown rate, the most negative rate
    first: each interval's rate is at most the rate of the next one. *)
Theorem selected_sorted (cfg : config) (data : DataFrame) (selected : list interval) :
  find_top_drawdown_intervals cfg data = Ok selected ->
  forall i a b,
    selected !! i = Some a -> selected !! S i = Some b ->
    (drawdown_rate a <=? drawdown_rate b)%float = true.
Proof.
  intros (l & Hl & Hsub)%find_sublist i a b Ha Hb.
  apply sort_by_ascending in Hl.
  apply (StronglySorted_sublist _ _ _ Hsub) in Hl.
  apply (StronglySorted_lookup _ selected i (S i) a b Hl); [lia|done..].
Qed.

Lemma selected_sorted_witness :
  find_top_drawdown_intervals config3 scenario3
  = Ok [scenario3_severe; scenario3_milder] /\
  (drawdown_rate scenario3_severe <=? drawdown_rate scenario3_milder)%float = true.
Proof.
  split; [vm_compute; reflexivity|].
  apply (selected_sorted config3 scenario3 [scenario3_severe; scenario3_milder]) with 0%nat;
    [vm_compute; reflexivity|reflexivity..].
Defined.

(** C4. Every interval of the returned list has a rate of at most
    [- MIN_DRAWDOWN_RATE] and a number of days between [MIN_DAYS] and
    [MAX_DAYS]; it is the candidate of a window from [start_index] to
    [end_index], and its days are [end_index - start_index]. *)
Theorem selected_thresholds (cfg : config) (data : DataFrame) (selected : list interval) :
  find_top_drawdown_intervals cfg data = Ok selected ->
  forall a, a ∈ selected ->
    (drawdown_rate a <=? - MIN_DRAWDOWN_RATE cfg)%float = true /\
    MIN_DAYS cfg <= days a <= MAX_DAYS cfg /\
    exists start_index end_index,
      0 <= start_index < len data /\ end_index < len data /\
      days a = end_index - start_index /\
      candidate data (start_index, end_index - start_index) = Ok a.
Proof.
  intros Hf a Ha.
  destruct (find_elem_of cfg data selected a Hf Ha) as ([s d] & Hw & Hc).
  split; [by eapply emitted_rate|].
  apply elem_of_emitted in Hw as [Hw _]. apply elem_of_windows in Hw.
  pose proof (candidate_inv data (s, d) a Hc) as (Hd & _). simpl in Hd.
  split; [lia|]. exists s, (s + d).
  replace (s + d - s) with d by lia. repeat split; [lia..|done].
Qed.

Lemma selected_thresholds_witness :
  find_top_drawdown_intervals config3 scenario3
  = Ok [scenario3_severe; scenario3_milder] /\
  (drawdown_rate scenario3_milder <=? - MIN_DRAWDOWN_RATE config3)%float = true /\
  MIN_DAYS config3 <= days scenario3_milder <= MAX_DAYS config3.
Proof.
  split; [vm_compute; reflexivity|].
  destruct (selected_thresholds config3 scenario3 [scenario3_severe; scenario3_milder])
    with scenario3_milder as (Hr & Hd & _);
    [vm_compute; reflexivity|set_solver|done].
Defined.

Lemma find_length_bounds (cfg : config) (data : DataFrame) (selected : list interval) :
  find_top_drawdown_intervals cfg data = Ok selected ->
  Z.of_nat (length selected) <= Z.max 0 (TOP_N cfg) /\
  exists drawdown_intervals,
    scan cfg data ∅ = Ok drawdown_intervals /\
    length drawdown_intervals = length (emitted cfg data) /\
    (length selected <= length drawdown_intervals)%nat.
Proof.
  intros Hf. split.
  { apply find_inv in Hf as (l & _ & ->).
    destruct (select_spec cfg (sort_by drawdown_rate l) [] ∅) as (l' & -> & _ & _ & Hlen).
    done. }
  apply find_sublist in Hf as (l & Hl & Hsub). exists l. split; [done|]. split.
  - apply scan_spec in Hl. by apply mapM_result_lookup in Hl as [Hlen _].
  - apply sublist_length in Hsub. by rewrite sort_by_length in Hsub.
Qed.

(** C5. For a configuration whose [TOP_N] is a count, that is not
    negative, the returned list has at most [TOP_N] members, and at most
    as many as the scan has candidates, which are as many as the
    qualifying windows. *)
Theorem selected_length (cfg : config) (data : DataFrame) (selected : list interval) :
  0 <= TOP_N cfg ->
  find_top_drawdown_intervals cfg data = Ok selected ->
  Z.of_nat (length selected) <= TOP_N cfg /\
  exists drawdown_intervals,
    scan cfg data ∅ = Ok drawdown_intervals /\
    length drawdown_intervals = length (emitted cfg data) /\
    (length selected <= length drawdown_intervals)%nat.
Proof.
  intros Htop Hf.
  destruct (find_length_bounds cfg data selected Hf) as [Hmax Hcands].
  split; [lia|done].
Qed.

Lemma selected_length_witness :
  0 <= TOP_N config3 /\
  find_top_drawdown_intervals config3 scenario3
  = Ok [scenario3_severe; scenario3_milder] /\
  Z.of_nat (length [scenario3_severe; scenario3_milder]) <= TOP_N config3.
Proof.
  split; [simpl; lia|]. split; [vm_compute; reflexivity|].
  destruct (selected_length config3 scenario3 [scenario3_severe; scenario3_milder])
    as [Hlen _]; [simpl; lia|vm_compute; reflexivity|exact Hlen].
Defined.

(** A negative [TOP_N] is no count: the loop stops at once and the list
    is empty. *)
Example negative_top_n_empty :
  find_top_drawdown_intervals config_top_negative scenario2 = Ok [].
Proof. vm_compute. reflexivity. Qed.

(** With [TOP_N] equal to the number of candidates that share no date,
    the bound is reached. *)
Example selected_length_reached :
  find_top_drawdown_intervals (with_top_n 2 config3) scenario3
  = Ok [scenario3_severe; scenario3_milder] /\
  find_top_drawdown_intervals (with_top_n 1 config3) scenario3
  = Ok [scenario3_severe].
Proof. split; vm_compute; reflexivity. Qed.

(** ** Two overlapping candidates *)

Lemma sort_by_pair (c1 c2 : interval) :
  (drawdown_rate c1 <? drawdown_rate c2)%float = true ->
  sort_by drawdown_rate [c1; c2] = [c1; c2] /\
  sort_by drawdown_rate [c2; c1] = [c1; c2].
Proof.
  intros Hlt. unfold sort_by. simpl.
  by rewrite Hlt, (ltb_asym _ _ Hlt).
Qed.

Lemma select_pair (cfg : config) (c1 c2 : interval) :
  1 <= TOP_N cfg -> dates c1 ∩ dates c2 <> ∅ ->
  (select cfg [c1; c2] [] ∅).1 = [c1].
Proof.
  intros Htop Hov. simpl.
  destruct (Z.leb_spec (TOP_N cfg) (Z.of_nat 0)); [lia|].
  destruct (Z.leb_spec (TOP_N cfg) (Z.of_nat 1)); [done|].
  rewrite (comm_L (∩)) in Hov. apply intersects_true in Hov. by rewrite Hov.
Qed.

(** C6. When the scan finds exactly two candidates, whose date sets
    overlap, one more severe than the other (as rates of -30% and -28%
    are), the function returns the more severe one only, for any [TOP_N]
    of at least 1; the other one is dropped whole although it passed the
    threshold and the length bounds of the scan. *)
Theorem overlapping_pair (cfg : config) (data : DataFrame) (c1 c2 : interval) :
  1 <= TOP_N cfg ->
  scan cfg data ∅ = Ok [c1; c2] \/ scan cfg data ∅ = Ok [c2; c1] ->
  (drawdown_rate c1 <? drawdown_rate c2)%float = true ->
  dates c1 ∩ dates c2 <> ∅ ->
  find_top_drawdown_intervals cfg data = Ok [c1] /\
  (c2 ∉ [c1]) /\
  (drawdown_rate c2 <=? - MIN_DRAWDOWN_RATE cfg)%float = true /\
  MIN_DAYS cfg <= days c2 <= MAX_DAYS cfg.
Proof.
  intros Htop Hscan Hlt Hov.
  destruct (sort_by_pair c1 c2 Hlt) as [Hs1 Hs2].
  assert (Hf : find_top_drawdown_intervals cfg data = Ok [c1]).
  { unfold find_top_drawdown_intervals.
    destruct Hscan as [-> | ->]; result_simpl.
    - by rewrite Hs1, select_pair.
    - by rewrite Hs2, select_pair. }
  split; [done|]. split.
  { intros ->%list_elem_of_singleton. by rewrite (ltb_asym _ _ Hlt) in Hlt. }
  assert (exists l, scan cfg data ∅ = Ok l /\ c2 ∈ l) as (l & Hl & Hc2).
  { destruct Hscan as [H | H]; eexists; (split; [exact H|set_solver]). }
  destruct (scan_elem_of cfg data l c2 Hl Hc2) as ([s d] & Hw & Hc).
  split; [by eapply emitted_rate|].
  apply elem_of_emitted in Hw as [Hw _]. apply elem_of_windows in Hw.
  apply candidate_inv in Hc as (Hd & _). simpl in Hd. lia.
Qed.

Lemma overlapping_pair_witness :
  (drawdown_rate scenario4_severe =? -0x1.e000000000001p+4)%float = true /\
  (drawdown_rate scenario4_milder =? -0x1.c000000000001p+4)%float = true /\
  find_top_drawdown_intervals config4 scenario4 = Ok [scenario4_severe].
Proof.
  split; [vm_compute; reflexivity|]. split; [vm_compute; reflexivity|].
  apply (overlapping_pair config4 scenario4 scenario4_severe scenario4_milder).
  - simpl. lia.
  - left. vm_compute. reflexivity.
  - vm_compute. reflexivity.
  - apply intersects_true. vm_compute. reflexivity.
Defined.

(** ** No validation *)

Lemma select_top_n_nonpositive (cfg : config) (l : list interval) :
  TOP_N cfg <= 0 -> (select cfg l [] ∅).1 = [].
Proof.
  intros Htop. destruct l as [|c l]; simpl; [done|].
  by destruct (Z.leb_spec (TOP_N cfg) (Z.of_nat 0)); [|lia].
Qed.

Lemma find_Raise_iff (cfg : config) (data : DataFrame) (e : exn) :
  find_top_drawdown_intervals cfg data = Raise e <-> scan cfg data ∅ = Raise e.
Proof.
  unfold find_top_drawdown_intervals.
  destruct (scan cfg data ∅); result_simpl; [split; done|done].
Qed.

(** The claim of C7 as it stands fails: a configuration with
    [MIN_DAYS > MAX_DAYS], one with [TOP_N] zero and a series with a
    negative price are each taken without an error; the first two give the
    empty list and the third an interval with a rate of -180%. *)
Lemma invalid_inputs_accepted :
  (MIN_DAYS config_no_days > MAX_DAYS config_no_days /\
   find_top_drawdown_intervals config_no_days scenario2 = Ok []) /\
  (TOP_N config_top_zero <= 0 /\
   find_top_drawdown_intervals config_top_zero scenario2 = Ok []) /\
  ((exists r, r ∈ negative_price /\ (close r <=? 0)%float = true) /\
   exists a,
     find_top_drawdown_intervals default_config negative_price = Ok [a] /\
     (drawdown_rate a =? -180)%float = true).
Proof.
  split; [split; [simpl; lia|vm_compute; reflexivity]|].
  split; [split; [simpl; lia|vm_compute; reflexivity]|].
  split.
  - exists (Row 5 (-80)%float). split; [|vm_compute; reflexivity].
    apply list_elem_of_lookup. exists 5%nat. reflexivity.
  - eexists. split; [vm_compute; reflexivity|vm_compute; reflexivity].
Qed.

(** C7, amended.  The function checks neither the configuration nor the
    prices.  With [MIN_DAYS > MAX_DAYS] it returns the empty list.  With
    [MIN_DAYS >= - n] it returns a list whatever [TOP_N] and the prices
    are, the empty one when [TOP_N <= 0].  The one error it raises is the
    [IndexError] of a price lookup, exactly when the series is not empty,
    [MIN_DAYS <= MAX_DAYS] and [MIN_DAYS < - n]. *)
Theorem no_validation (cfg : config) (data : DataFrame) :
  (MAX_DAYS cfg < MIN_DAYS cfg -> find_top_drawdown_intervals cfg data = Ok []) /\
  (- len data <= MIN_DAYS cfg ->
   exists selected,
     find_top_drawdown_intervals cfg data = Ok selected /\
     (TOP_N cfg <= 0 -> selected = [])) /\
  (forall e,
     find_top_drawdown_intervals cfg data = Raise e <->
     e = IndexError /\ 0 < len data /\
     MIN_DAYS cfg <= MAX_DAYS cfg /\ MIN_DAYS cfg < - len data).
Proof.
  split; [|split].
  - intros Hd. unfold find_top_drawdown_intervals.
    rewrite scan_no_days by done. done.
  - intros Hmin. destruct (scan_total cfg data ∅ Hmin) as [l Hl].
    unfold find_top_drawdown_intervals. rewrite Hl. result_simpl.
    eexists. split; [done|]. apply select_top_n_nonpositive.
  - intros e. rewrite find_Raise_iff. split.
    + intros Hr. destruct e. split; [done|].
      destruct (decide (MIN_DAYS cfg <= MAX_DAYS cfg)) as [Hle|Hgt].
      * destruct (scan_Raise_iff cfg data Hle) as [H _]. by destruct (H Hr).
      * rewrite scan_no_days in Hr by lia. done.
    + intros (-> & Hn & Hle & Hlt). by apply scan_raises.
Qed.

Lemma no_validation_witness :
  MAX_DAYS config_no_days < MIN_DAYS config_no_days /\
  find_top_drawdown_intervals config_no_days scenario2 = Ok [].
Proof.
  split; [simpl; lia|].
  apply (no_validation config_no_days scenario2). simpl. lia.
Defined.

(** ** Raising the threshold *)

Lemma scan_days_threshold (cfg1 cfg2 : config) (data : DataFrame) (s : Z)
    (ds : list Z) (acc1 acc2 l1 : list interval) :
  (MIN_DRAWDOWN_RATE cfg1 <=? MIN_DRAWDOWN_RATE cfg2)%float = true ->
  acc2 `sublist_of` acc1 ->
  scan_days cfg1 data ∅ s ds acc1 = Ok l1 ->
  exists l2, scan_days cfg2 data ∅ s ds acc2 = Ok l2 /\ l2 `sublist_of` l1.
Proof.
  intros Ht. revert acc1 acc2.
  induction ds as [|d ds IH]; intros acc1 acc2 Hacc H; simpl in H |- *.
  { simplify_eq. eauto. }
  destruct (len data <=? s + d).
  { simplify_eq. eauto. }
  rewrite intersects_empty in H |- *.
  destruct (py_getitem (Close data) s) as [sp|] eqn:Hsp; [|done].
  destruct (py_getitem (Close data) (s + d)) as [ep|] eqn:Hep; [|done].
  result_simpl.
  destruct (index_getitem_Ok data s sp Hsp) as [sd Hsd].
  destruct (index_getitem_Ok data (s + d) ep Hep) as [ed Hed].
  rewrite Hsd, Hed in H |- *. result_simpl.
  destruct (rate sp ep <=? - MIN_DRAWDOWN_RATE cfg2)%float eqn:H2.
  - rewrite (leb_trans _ _ _ H2 (leb_opp _ _ Ht)) in H.
    apply (IH _ _ (sublist_app _ _ _ _ Hacc (reflexivity _)) H).
  - destruct (rate sp ep <=? - MIN_DRAWDOWN_RATE cfg1)%float.
    + apply (IH _ _ (sublist_inserts_r _ _ _ Hacc) H).
    + apply (IH _ _ Hacc H).
Qed.

Lemma scan_starts_threshold (cfg1 cfg2 : config) (data : DataFrame)
    (ss : list Z) (acc1 acc2 l1 : list interval) :
  (MIN_DRAWDOWN_RATE cfg1 <=? MIN_DRAWDOWN_RATE cfg2)%float = true ->
  MIN_DAYS cfg1 = MIN_DAYS cfg2 -> MAX_DAYS cfg1 = MAX_DAYS cfg2 ->
  acc2 `sublist_of` acc1 ->
  scan_starts cfg1 data ∅ ss acc1 = Ok l1 ->
  exists l2, scan_starts cfg2 data ∅ ss acc2 = Ok l2 /\ l2 `sublist_of` l1.
Proof.
  intros Ht Hmin Hmax. revert acc1 acc2.
  induction ss as [|s ss IH]; intros acc1 acc2 Hacc H; simpl in H |- *.
  { simplify_eq. eauto. }
  destruct (scan_days cfg1 _ _ _ _ _) as [acc1'|] eqn:Hd; [|done]. result_simpl.
  rewrite <- Hmin, <- Hmax.
  destruct (scan_days_threshold cfg1 cfg2 _ _ _ _ _ _ Ht Hacc Hd) as (acc2' & -> & Hacc').
  result_simpl. by apply (IH acc1' acc2').
Qed.

(** C8. For one series and one range of window lengths, and thresholds
    [t1 <= t2], the candidates the scan finds with [MIN_DRAWDOWN_RATE = t2]
    are among those it finds with [MIN_DRAWDOWN_RATE = t1], in the same
    order, and so are not more. *)
Theorem threshold_monotone (cfg : config) (data : DataFrame) (t1 t2 : float)
    (candidates1 : list interval) :
  (t1 <=? t2)%float = true ->
  scan (with_threshold t1 cfg) data ∅ = Ok candidates1 ->
  exists candidates2,
    scan (with_threshold t2 cfg) data ∅ = Ok candidates2 /\
    candidates2 `sublist_of` candidates1 /\
    (forall c, c ∈ candidates2 -> c ∈ candidates1) /\
    (length candidates2 <= length candidates1)%nat /\
    (length (emitted (with_threshold t2 cfg) data)
     <= length (emitted (with_threshold t1 cfg) data))%nat.
Proof.
  intros Ht H1.
  destruct (scan_starts_threshold (with_threshold t1 cfg) (with_threshold t2 cfg)
              data (range 0 (len data)) [] [] candidates1)
    as (l2 & H2 & Hsub); [done..|].
  exists l2. split; [done|]. split; [done|]. split.
  { intros c Hc. by eapply elem_of_sublist. }
  pose proof (sublist_length _ _ Hsub) as Hlen. split; [done|].
  apply scan_spec, mapM_result_lookup in H1 as [<- _].
  apply scan_spec, mapM_result_lookup in H2 as [<- _]. done.
Qed.

Lemma threshold_monotone_witness :
  (10 <=? 18)%float = true /\
  scan (with_threshold 10 config3) scenario3 ∅
  = Ok [scenario3_milder; scenario3_severe] /\
  exists candidates2,
    scan (with_threshold 18 config3) scenario3 ∅ = Ok candidates2 /\
    candidates2 `sublist_of` [scenario3_milder; scenario3_severe].
Proof.
  split; [vm_compute; reflexivity|]. split; [vm_compute; reflexivity|].
  destruct (threshold_monotone config3 scenario3 10 18 [scenario3_milder; scenario3_severe])
    as (l2 & H2 & Hsub & _); [vm_compute; reflexivity..|].
  exists l2. split; [exact H2|exact Hsub].
Defined.

Example threshold_18 :
  scan (with_threshold 18 config3) scenario3 ∅ = Ok [scenario3_severe].
Proof. vm_compute. reflexivity. Qed.

(** ** Repeated invocations *)

Lemma tag_snd {A : Type} (i : nat) (l : list A) : (tag i l).*2 = l.
Proof. revert i. induction l as [|x l IH]; intros i; simpl; [done|]. by rewrite IH. Qed.

Lemma tag_fst_ge {A : Type} (i : nat) (l : list A) (p : nat * A) :
  p ∈ tag i l -> (i <= p.1)%nat.
Proof.
  revert i. induction l as [|x l IH]; intros i Hp; simpl in Hp.
  { by apply elem_of_nil in Hp. }
  apply elem_of_cons in Hp as [->|Hp]; [done|]. apply IH in Hp. lia.
Qed.

Lemma tag_by_position {A : Type} (i : nat) (l : list A) :
  StronglySorted by_position (tag i l).
Proof.
  revert i. induction l as [|x l IH]; intros i; simpl; constructor; [apply IH|].
  apply Forall_forall. intros p Hp. apply tag_fst_ge in Hp.
  unfold by_position. simpl. lia.
Qed.

Lemma insert_by_fmap {A B : Type} (f : A -> B) (key : B -> float) (x : A) (l : list A) :
  insert_by key (f x) (f <$> l) = f <$> insert_by (key ∘ f) x l.
Proof.
  induction l as [|y l IH]; simpl; [done|].
  destruct (key (f y) <? key (f x))%float; simpl; [|done].
  f_equal. apply IH.
Qed.

Lemma sort_by_fmap {A B : Type} (f : A -> B) (key : B -> float) (l : list A) :
  sort_by key (f <$> l) = f <$> sort_by (key ∘ f) l.
Proof.
  induction l as [|x l IH]; [done|].
  change (sort_by key (f <$> x :: l))
    with (insert_by key (f x) (sort_by key (f <$> l))).
  rewrite IH. apply insert_by_fmap.
Qed.

Lemma tag_is_number {A : Type} (key : A -> float) (i : nat) (l : list A) :
  Forall (fun x => is_number (key x)) l ->
  Forall (fun p => is_number ((key ∘ snd) p)) (tag i l).
Proof.
  intros Hl. revert i. induction Hl as [|x l Hx _ IH]; intros i; simpl; constructor;
    [done|apply IH].
Qed.

(** Whatever stable sort the run time uses, on keys that are numbers it
    returns the list [sort_by] computes. *)
Lemma stable_sorting_unique {A : Type} (key : A -> float) (l l' : list A) :
  Forall (fun x => is_number (key x)) l ->
  stable_sorting key l l' -> l' = sort_by key l.
Proof.
  intros Hnum (tagged & Hp & Hs & ->).
  rewrite (stable_sort_unique (key ∘ snd) by_position (tag 0 l) tagged).
  - by rewrite <- sort_by_fmap, tag_snd.
  - unfold by_position. intros x y Hxy Hyx. lia.
  - by apply tag_is_number.
  - apply tag_by_position.
  - done.
  - done.
Qed.





(** The stability of the sort is what fixes the result: the two
    candidates of this series have one rate, and a sort that put the
    second before the first would have the selection return the second. *)
Example unstable_order_differs :
  (drawdown_rate tie_first =? drawdown_rate tie_second)%float = true /\
  (select config_tie [tie_first; tie_second] [] ∅).1 = [tie_first] /\
  (select config_tie [tie_second; tie_first] [] ∅).1 = [tie_second] /\
  ~ stable_sorting drawdown_rate [tie_first; tie_second] [tie_second; tie_first].
Proof.
  split; [vm_compute; reflexivity|]. split; [vm_compute; reflexivity|].
  split; [vm_compute; reflexivity|].
  intros Hs. apply stable_sorting_unique in Hs.
  - vm_compute in Hs. discriminate Hs.
  - repeat constructor; vm_compute; reflexivity.
Qed.

(** ** Ties *)

Lemma mapM_result_insert_by {A B : Type} (f : A -> result B)
    (key : A -> float) (key' : B -> float) (x : A) (y : B) (l : list A) (l' : list B) :
  (forall a b, f a = Ok b -> key' b = key a) ->
  f x = Ok y -> mapM_result f l = Ok l' ->
  mapM_result f (insert_by key x l) = Ok (insert_by key' y l').
Proof.
  intros Hkey Hx. revert l'. induction l as [|a l IH]; intros l' Hl; simpl in Hl |- *.
  { simplify_eq. simpl. by rewrite Hx. }
  destruct (f a) as [b|] eqn:Ha; [|done]. result_simpl.
  destruct (mapM_result f l) as [bs|] eqn:Hbs; [|done]. result_simpl. simplify_eq.
  simpl. rewrite (Hkey a b Ha), (Hkey x y Hx).
  destruct (key a <? key x)%float; simpl.
  - rewrite Ha. result_simpl. by rewrite (IH bs eq_refl).
  - rewrite Hx, Ha. result_simpl. by rewrite Hbs.
Qed.

Lemma mapM_result_sort_by {A B : Type} (f : A -> result B)
    (key : A -> float) (key' : B -> float) (l : list A) (l' : list B) :
  (forall a b, f a = Ok b -> key' b = key a) ->
  mapM_result f l = Ok l' ->
  mapM_result f (sort_by key l) = Ok (sort_by key' l').
Proof.
  intros Hkey. revert l'. induction l as [|x l IH]; intros l' Hl; simpl in Hl |- *.
  { by simplify_eq. }
  destruct (f x) as [y|] eqn:Hx; [|done]. result_simpl.
  destruct (mapM_result f l) as [ys|]; [|done]. result_simpl. simplify_eq.
  simpl. apply mapM_result_insert_by; [done..|by apply IH].
Qed.

Lemma visited_sorted (n s : Z) (ds : list Z) :
  StronglySorted Z.lt ds -> StronglySorted scan_before (visited n s ds).
Proof.
  induction 1 as [|d ds Hs IH Hd]; simpl; [constructor|].
  destruct (n <=? s + d); constructor; [done|].
  apply Forall_forall. intros w Hw.
  apply elem_of_visited in Hw as (Hw1 & Hw2 & _); [|done].
  rewrite Forall_forall in Hd. right. simpl. split; [done|]. by apply Hd.
Qed.

Lemma windows_sorted (cfg : config) (data : DataFrame) :
  StronglySorted scan_before (windows cfg data).
Proof.
  unfold windows. generalize (range_sorted 0 (len data)).
  generalize (range 0 (len data)). intros ss.
  induction 1 as [|s ss Hs IH Hlt]; [constructor|].
  rewrite bind_cons. apply StronglySorted_app_2; [|apply visited_sorted, range_sorted|done].
  intros w1 w2 Hw1 Hw2.
  apply elem_of_visited in Hw1 as (Hw1 & _); [|apply range_sorted].
  apply list_elem_of_bind in Hw2 as (s' & Hw2 & Hs').
  apply elem_of_visited in Hw2 as (Hw2 & _); [|apply range_sorted].
  rewrite Forall_forall in Hlt. left. rewrite Hw1, Hw2. by apply Hlt.
Qed.

Lemma filter_sublist {A : Type} (p : A -> bool) (l : list A) :
  List.filter p l `sublist_of` l.
Proof.
  induction l as [|x l IH]; simpl; [done|].
  destruct (p x); [by apply sublist_skip|by apply sublist_cons].
Qed.

Lemma emitted_sorted (cfg : config) (data : DataFrame) :
  StronglySorted scan_before (emitted cfg data).
Proof.
  eapply StronglySorted_sublist; [apply filter_sublist|apply windows_sorted].
Qed.

Lemma candidate_rate_of (data : DataFrame) (w : Z * Z) (c : interval) :
  candidate data w = Ok c -> drawdown_rate c = rate_of data w.
Proof. intros (_ & Hr & _)%candidate_inv. unfold rate_of. by rewrite Hr. Qed.

Lemma emitted_is_number (cfg : config) (data : DataFrame) :
  Forall (fun w => is_number (rate_of data w)) (emitted cfg data).
Proof.
  apply Forall_forall. intros w [_ Hq]%elem_of_emitted.
  unfold qualifies in Hq. unfold rate_of.
  destruct (window_rate data w); [|done]. by eapply leb_is_number_l.
Qed.

(** C10. The sort is stable: candidates of exactly equal rate reach the
    selection loop in the order in which the scan found them.  Of two such
    candidates the one with the smaller start position, and for one start
    position the one with the shorter window, comes first in the sorted
    list, and so is considered first. *)
Theorem tie_break (cfg : config) (data : DataFrame) (candidates : list interval) :
  scan cfg data ∅ = Ok candidates ->
  exists order,
    order ≡ₚ emitted cfg data /\
    mapM_result (candidate data) order = Ok (sort_by drawdown_rate candidates) /\
    forall i j start1 days1 start2 days2 c1 c2,
      order !! i = Some (start1, days1) ->
      order !! j = Some (start2, days2) ->
      candidate data (start1, days1) = Ok c1 ->
      candidate data (start2, days2) = Ok c2 ->
      (drawdown_rate c1 =? drawdown_rate c2)%float = true ->
      start1 < start2 \/ (start1 = start2 /\ days1 < days2) ->
      sort_by drawdown_rate candidates !! i = Some c1 /\
      sort_by drawdown_rate candidates !! j = Some c2 /\
      (i < j)%nat.
Proof.
  intros Hscan. apply scan_spec in Hscan.
  exists (sort_by (rate_of data) (emitted cfg data)).
  split; [apply sort_by_perm|].
  pose proof (mapM_result_sort_by _ (rate_of data) drawdown_rate _ _
                (candidate_rate_of data) Hscan) as Hsorted.
  split; [done|].
  intros i j s1 d1 s2 d2 c1 c2 Hi Hj Hc1 Hc2 Heq Hbefore.
  destruct (mapM_result_lookup _ _ _ Hsorted) as [_ Hlookup].
  split; [apply Hlookup; eauto|]. split; [apply Hlookup; eauto|].
  pose proof (sort_by_sorted (rate_of data) scan_before (emitted cfg data)
                (emitted_is_number cfg data) (emitted_sorted cfg data)) as Hs.
  destruct (decide (i < j)%nat) as [|Hge]; [done|]. exfalso.
  destruct (decide (i = j)) as [->|Hne].
  { rewrite Hi in Hj. injection Hj as <- <-. unfold scan_before in Hbefore. lia. }
  pose proof (StronglySorted_lookup _ _ j i _ _ Hs ltac:(lia) Hj Hi) as [_ [Hlt|Hb]].
  - rewrite <- (candidate_rate_of data _ _ Hc1), <- (candidate_rate_of data _ _ Hc2) in Hlt.
    apply eqb_not_ltb in Heq as [_ Heq]. congruence.
  - unfold scan_before in Hb. simpl in Hb. lia.
Qed.

Lemma tie_break_witness :
  scan config_tie scenario_tie ∅ = Ok [tie_first; tie_second] /\
  exists order,
    order ≡ₚ emitted config_tie scenario_tie /\
    mapM_result (candidate scenario_tie) order
    = Ok (sort_by drawdown_rate [tie_first; tie_second]).
Proof.
  split; [vm_compute; reflexivity|].
  destruct (tie_break config_tie scenario_tie [tie_first; tie_second])
    as (order & Hp & Hm & _); [vm_compute; reflexivity|].
  exists order. split; [exact Hp|exact Hm].
Defined.

(** * Further properties of the scan and of the selection *)

(** ** Series too short for any window *)

Lemma scan_days_break (cfg : config) (data : DataFrame) (used : gset Z)
    (s lo hi : Z) (acc : list interval) :
  len data <= s + lo -> scan_days cfg data used s (range lo hi) acc = Ok acc.
Proof.
  intros Hn. destruct (decide (lo < hi)) as [Hlt|Hge].
  - rewrite range_cons by done. simpl.
    by destruct (Z.leb_spec (len data) (s + lo)); [|lia].
  - by rewrite range_nil by lia.
Qed.

Lemma scan_starts_short (cfg : config) (data : DataFrame) (used : gset Z)
    (ss : list Z) (acc : list interval) :
  Forall (fun s => len data <= s + MIN_DAYS cfg) ss ->
  scan_starts cfg data used ss acc = Ok acc.
Proof.
  induction 1 as [|s ss Hs _ IH]; simpl; [done|].
  rewrite scan_days_break by done. result_simpl. done.
Qed.

(** A series with no more than [MIN_DAYS] points, the empty series among
    them, has no window: the function returns the empty list, and no price
    is looked up. *)
Theorem short_series (cfg : config) (data : DataFrame) :
  len data <= Z.max 0 (MIN_DAYS cfg) ->
  scan cfg data ∅ = Ok [] /\ find_top_drawdown_intervals cfg data = Ok [].
Proof.
  intros Hn.
  assert (Hs : scan cfg data ∅ = Ok []).
  { apply scan_starts_short. apply Forall_forall. intros s Hs.
    apply elem_of_range in Hs. lia. }
  split; [done|]. unfold find_top_drawdown_intervals. by rewrite Hs.
Qed.

Lemma short_series_witness :
  len scenario2 <= Z.max 0 (MIN_DAYS config4) /\
  find_top_drawdown_intervals config4 scenario2 = Ok [].
Proof.
  split; [vm_compute; discriminate|].
  apply (short_series config4 scenario2). vm_compute. discriminate.
Defined.

(** ** The most severe candidate comes first *)

Lemma is_overlap_true (current_dates : gset Z) (selected : list interval) :
  is_overlap current_dates selected = true <->
  exists s, s ∈ selected /\ dates s ∩ current_dates <> ∅.
Proof.
  split.
  - intros Ho. destruct (decide (Exists (fun s => dates s ∩ current_dates <> ∅) selected))
      as [He|Hne].
    + apply Exists_exists in He. done.
    + assert (is_overlap current_dates selected = false) as Hf; [|congruence].
      apply is_overlap_false. intros s Hs.
      destruct (decide (dates s ∩ current_dates = ∅)) as [|Hd]; [done|].
      destruct Hne. apply Exists_exists. eauto.
  - intros (s & Hs & Hd). destruct (is_overlap current_dates selected) eqn:Ho; [done|].
    rewrite is_overlap_false in Ho. by destruct Hd; apply Ho.
Qed.

Lemma select_cons_first (cfg : config) (c : interval) (l : list interval) :
  1 <= TOP_N cfg -> exists rest, (select cfg (c :: l) [] ∅).1 = c :: rest.
Proof.
  intros Htop. simpl.
  destruct (Z.leb_spec (TOP_N cfg) (Z.of_nat 0)); [lia|].
  destruct (select_spec cfg l [c] (∅ ∪ dates c)) as (l' & -> & _). eauto.
Qed.

(** The function returns the empty list exactly when the scan found no
    candidate or [TOP_N] is not positive.  Otherwise its first interval is
    a candidate no other candidate is more severe than. *)
Theorem most_severe_first (cfg : config) (data : DataFrame)
    (candidates selected : list interval) :
  scan cfg data ∅ = Ok candidates ->
  find_top_drawdown_intervals cfg data = Ok selected ->
  (selected = [] <-> candidates = [] \/ TOP_N cfg <= 0) /\
  forall first rest,
    selected = first :: rest ->
    first ∈ candidates /\
    forall c, c ∈ candidates ->
      (drawdown_rate first <=? drawdown_rate c)%float = true.
Proof.
  intros Hscan Hf.
  pose proof (sort_by_ascending cfg data candidates Hscan) as Hasc.
  pose proof (scan_is_number cfg data candidates Hscan) as Hnum.
  apply find_inv in Hf as (l & Hl & ->). rewrite Hscan in Hl. injection Hl as <-.
  pose proof (sort_by_perm drawdown_rate candidates) as Hp.
  destruct (sort_by drawdown_rate candidates) as [|c0 l] eqn:Hs.
  { apply Permutation_nil_l in Hp as <-. split; [by split; [left|]|]. done. }
  assert (candidates <> []) as Hne.
  { intros ->. by apply Permutation_nil_r in Hp. }
  destruct (decide (1 <= TOP_N cfg)) as [Htop|Htop].
  - destruct (select_cons_first cfg c0 l Htop) as [rest' ->]. split.
    + split; [done|]. intros [?|?]; [done|lia].
    + intros first rest [= <- <-].
      assert (c0 ∈ candidates) as Hc0 by (rewrite <- Hp; by left).
      split; [done|]. intros c Hc. rewrite <- Hp in Hc.
      apply StronglySorted_cons in Hasc as [Hall _].
      apply elem_of_cons in Hc as [->|Hc].
      * rewrite Forall_forall in Hnum. by apply Hnum.
      * rewrite Forall_forall in Hall. by apply Hall.
  - rewrite select_top_n_nonpositive by lia. split; [|done].
    split; [right; lia|done].
Qed.

Lemma most_severe_first_witness :
  scan config3 scenario3 ∅ = Ok [scenario3_milder; scenario3_severe] /\
  find_top_drawdown_intervals config3 scenario3
  = Ok [scenario3_severe; scenario3_milder] /\
  (drawdown_rate scenario3_severe <=? drawdown_rate scenario3_milder)%float = true.
Proof.
  split; [vm_compute; reflexivity|]. split; [vm_compute; reflexivity|].
  destruct (most_severe_first config3 scenario3
              [scenario3_milder; scenario3_severe]
              [scenario3_severe; scenario3_milder]) as [_ Hfirst];
    [vm_compute; reflexivity..|].
  destruct (Hfirst scenario3_severe [scenario3_milder] eq_refl) as [_ Hmin].
  apply Hmin. rewrite !elem_of_cons. left. reflexivity.
Defined.

(** ** Nothing is left out without a reason *)

Lemma select_maximal (R : relation interval) (cfg : config)
    (l selected : list interval) (used : gset Z) :
  StronglySorted R l ->
  (forall s c, s ∈ selected -> c ∈ l -> R s c) ->
  forall c, c ∈ l ->
    c ∈ (select cfg l selected used).1 \/
    (exists s, s ∈ (select cfg l selected used).1 /\ R s c /\
               dates s ∩ dates c <> ∅) \/
    TOP_N cfg <= Z.of_nat (length (select cfg l selected used).1).
Proof.
  intros Hs. revert selected used.
  induction Hs as [|c0 l Hs IH Hc0]; intros selected used Hsel c Hc.
  { by apply elem_of_nil in Hc. }
  rewrite Forall_forall in Hc0. simpl.
  destruct (Z.leb_spec (TOP_N cfg) (Z.of_nat (length selected))); [by right; right|].
  destruct (is_overlap (dates c0) selected) eqn:Ho.
  - apply elem_of_cons in Hc as [->|Hc].
    + right. left. apply is_overlap_true in Ho as (s & Hsin & Hd).
      exists s. split; [|split; [apply Hsel; [done|by left]|done]].
      destruct (select_spec cfg l selected used) as (l' & -> & _).
      apply elem_of_app. by left.
    + apply IH; [|done]. intros s c' Hsin Hc'. apply Hsel; [done|by right].
  - destruct (select_spec cfg l (selected ++ [c0]) (used ∪ dates c0))
      as (l' & Heq & _).
    apply elem_of_cons in Hc as [->|Hc].
    + left. rewrite Heq, !elem_of_app. left. right. by left.
    + apply IH; [|done]. intros s c' [Hsin|Hsin%list_elem_of_singleton]%elem_of_app Hc'.
      * apply Hsel; [done|by right].
      * subst s. by apply Hc0.
Qed.

(** Every candidate the function does not return either shares a date
    with a returned interval that is at least as severe, or was cut off by
    the list being full, with [TOP_N] members. *)
Theorem greedy_maximal (cfg : config) (data : DataFrame)
    (candidates selected : list interval) :
  scan cfg data ∅ = Ok candidates ->
  find_top_drawdown_intervals cfg data = Ok selected ->
  forall c, c ∈ candidates ->
    c ∈ selected \/
    (exists s, s ∈ selected /\
               (drawdown_rate s <=? drawdown_rate c)%float = true /\
               dates s ∩ dates c <> ∅) \/
    TOP_N cfg <= Z.of_nat (length selected).
Proof.
  intros Hscan Hf c Hc.
  pose proof (sort_by_ascending cfg data candidates Hscan) as Hasc.
  apply find_inv in Hf as (l & Hl & ->). rewrite Hscan in Hl. injection Hl as <-.
  apply (select_maximal _ cfg _ [] ∅ Hasc).
  - intros s c' Hs. by apply elem_of_nil in Hs.
  - by apply elem_of_sort_by.
Qed.

Lemma greedy_maximal_witness :
  scan config4 scenario4 ∅ = Ok [scenario4_severe; scenario4_milder] /\
  find_top_drawdown_intervals config4 scenario4 = Ok [scenario4_severe] /\
  (scenario4_milder ∈ [scenario4_severe] \/
   (exists s, s ∈ [scenario4_severe] /\
              (drawdown_rate s <=? drawdown_rate scenario4_milder)%float = true /\
              dates s ∩ dates scenario4_milder <> ∅) \/
   TOP_N config4 <= Z.of_nat (length [scenario4_severe])).
Proof.
  split; [vm_compute; reflexivity|]. split; [vm_compute; reflexivity|].
  apply (greedy_maximal config4 scenario4 [scenario4_severe; scenario4_milder]);
    [vm_compute; reflexivity..|].
  rewrite !elem_of_cons. right. left. reflexivity.
Defined.

(** ** A smaller [TOP_N] gives a prefix *)

Lemma scan_days_with_top_n (k : Z) (cfg : config) (data : DataFrame) (used : gset Z)
    (s : Z) (ds : list Z) (acc : list interval) :
  scan_days (with_top_n k cfg) data used s ds acc = scan_days cfg data used s ds acc.
Proof.
  revert acc. induction ds as [|d ds IH]; intros acc; simpl; [done|].
  destruct (_ <=? _); [done|]. destruct (intersects _ _); [done|].
  destruct (py_getitem (Close data) s); [|done].
  destruct (py_getitem (Close data) (s + d)); [|done]. result_simpl.
  destruct (_ <=? _)%float; [|done].
  destruct (py_getitem (index data) s); [|done].
  destruct (py_getitem (index data) (s + d)); [|done]. result_simpl. done.
Qed.

(** The scan does not read [TOP_N]. *)
Lemma scan_with_top_n (k : Z) (cfg : config) (data : DataFrame) (used : gset Z) :
  scan (with_top_n k cfg) data used = scan cfg data used.
Proof.
  unfold scan. generalize (@nil interval). generalize (range 0 (len data)).
  intros ss. induction ss as [|s ss IH]; intros acc; simpl; [done|].
  rewrite scan_days_with_top_n.
  destruct (scan_days _ _ _ _ _ _); [|done]. result_simpl. apply IH.
Qed.

Lemma select_take (cfg1 cfg2 : config) (l selected : list interval) (used : gset Z) :
  TOP_N cfg1 <= TOP_N cfg2 ->
  (length selected <= Z.to_nat (TOP_N cfg1))%nat ->
  (select cfg1 l selected used).1
  = take (Z.to_nat (TOP_N cfg1)) (select cfg2 l selected used).1.
Proof.
  intros Hle. revert selected used.
  induction l as [|c l IH]; intros selected used Hlen; simpl.
  { by rewrite take_ge. }
  destruct (Z.leb_spec (TOP_N cfg1) (Z.of_nat (length selected))) as [H1|H1].
  - assert (Z.to_nat (TOP_N cfg1) = length selected) as -> by lia.
    destruct (TOP_N cfg2 <=? Z.of_nat (length selected)).
    { simpl. by rewrite take_ge. }
    destruct (is_overlap (dates c) selected).
    + destruct (select_spec cfg2 l selected used) as (l' & -> & _).
      by rewrite take_app_length.
    + destruct (select_spec cfg2 l (selected ++ [c]) (used ∪ dates c)) as (l' & -> & _).
      by rewrite <- app_assoc, take_app_length.
  - destruct (Z.leb_spec (TOP_N cfg2) (Z.of_nat (length selected))); [lia|].
    destruct (is_overlap (dates c) selected); apply IH; [done|].
    rewrite length_app. simpl. lia.
Qed.

(** Lowering [TOP_N] from [k'] to [k] cuts the returned list down to its
    first [k] intervals and changes nothing else. *)
Theorem top_n_prefix (cfg : config) (data : DataFrame) (k k' : Z)
    (selected : list interval) :
  k <= k' ->
  find_top_drawdown_intervals (with_top_n k' cfg) data = Ok selected ->
  find_top_drawdown_intervals (with_top_n k cfg) data
  = Ok (take (Z.to_nat k) selected).
Proof.
  intros Hk (l & Hl & ->)%find_inv.
  unfold find_top_drawdown_intervals.
  rewrite scan_with_top_n in Hl |- *. rewrite Hl. result_simpl.
  f_equal. apply (select_take (with_top_n k cfg) (with_top_n k' cfg)); simpl; [done|lia].
Qed.

Lemma top_n_prefix_witness :
  1 <= 10 /\
  find_top_drawdown_intervals (with_top_n 10 config3) scenario3
  = Ok [scenario3_severe; scenario3_milder] /\
  find_top_drawdown_intervals (with_top_n 1 config3) scenario3
  = Ok (take (Z.to_nat 1) [scenario3_severe; scenario3_milder]).
Proof.
  split; [lia|]. split; [vm_compute; reflexivity|].
  apply (top_n_prefix config3 scenario3 1 10); [lia|vm_compute; reflexivity].
Defined.

(** ** Candidates that share no date *)

Lemma StronglySorted_Permutation {A : Type} (R : relation A) (l l' : list A) :
  (forall a b, R a b -> R b a) ->
  l ≡ₚ l' -> StronglySorted R l -> StronglySorted R l'.
Proof.
  intros Hsym. induction 1 as [|x l l' Hp IH|x y l|l1 l2 l3 _ IH1 _ IH2]; intros Hs.
  - done.
  - apply StronglySorted_cons in Hs as [Hx Hs]. constructor; [by apply IH|].
    by rewrite <- Hp.
  - apply StronglySorted_cons in Hs as [Hy Hs].
    apply StronglySorted_cons in Hs as [Hx Hs].
    apply Forall_cons in Hy as [Hyx Hy].
    constructor; [by constructor|]. constructor; [by apply Hsym|done].
  - by apply IH2, IH1.
Qed.

Lemma StronglySorted_of_lookup {A : Type} (R : relation A) (l : list A) :
  (forall i j a b, (i < j)%nat -> l !! i = Some a -> l !! j = Some b -> R a b) ->
  StronglySorted R l.
Proof.
  induction l as [|x l IH]; intros H; constructor.
  - apply IH. intros i j a b Hij Ha Hb. apply (H (S i) (S j)); [lia|done..].
  - apply Forall_lookup. intros j b Hb. apply (H 0%nat (S j)); [lia|done..].
Qed.

Lemma disjoint_dates_sym (a b : interval) : disjoint_dates a b -> disjoint_dates b a.
Proof. unfold disjoint_dates. by rewrite (comm_L (∩)). Qed.

Lemma select_all_disjoint (cfg : config) (l selected : list interval) (used : gset Z) :
  StronglySorted disjoint_dates (selected ++ l) ->
  (length selected <= Z.to_nat (TOP_N cfg))%nat ->
  (select cfg l selected used).1 = take (Z.to_nat (TOP_N cfg)) (selected ++ l).
Proof.
  revert selected used. induction l as [|c l IH]; intros selected used Hs Hlen; simpl.
  { by rewrite app_nil_r, take_ge. }
  destruct (Z.leb_spec (TOP_N cfg) (Z.of_nat (length selected))).
  { assert (Z.to_nat (TOP_N cfg) = length selected) as -> by lia.
    by rewrite take_app_length. }
  assert (is_overlap (dates c) selected = false) as ->.
  { apply is_overlap_false. intros s Hsin.
    apply (StronglySorted_app_1_elem_of _ _ _ s c Hs Hsin). by left. }
  specialize (IH (selected ++ [c]) (used ∪ dates c)).
  rewrite <- app_assoc in IH. simpl in IH.
  apply IH; [done|]. rewrite length_app. simpl. lia.
Qed.

(** When no two candidates of the scan share a date nothing is discarded
    for overlap: the function returns the first [TOP_N] candidates in
    ascending order of rate, and all of them when they are at most [TOP_N]. *)
Theorem disjoint_candidates (cfg : config) (data : DataFrame) (candidates : list interval) :
  scan cfg data ∅ = Ok candidates ->
  (forall i j a b,
     (i < j)%nat -> candidates !! i = Some a -> candidates !! j = Some b ->
     dates a ∩ dates b = ∅) ->
  find_top_drawdown_intervals cfg data
  = Ok (take (Z.to_nat (TOP_N cfg)) (sort_by drawdown_rate candidates)) /\
  (Z.of_nat (length candidates) <= TOP_N cfg ->
   find_top_drawdown_intervals cfg data = Ok (sort_by drawdown_rate candidates)).
Proof.
  intros Hscan Hdis.
  assert (Hf : find_top_drawdown_intervals cfg data
               = Ok (take (Z.to_nat (TOP_N cfg)) (sort_by drawdown_rate candidates))).
  { unfold find_top_drawdown_intervals. rewrite Hscan. result_simpl. f_equal.
    apply (select_all_disjoint cfg _ [] ∅); [|simpl; lia]. simpl.
    apply (StronglySorted_Permutation _ candidates);
      [apply disjoint_dates_sym|by rewrite sort_by_perm|].
    by apply StronglySorted_of_lookup. }
  split; [done|]. intros Hlen. rewrite Hf, take_ge; [done|].
  rewrite sort_by_length. lia.
Qed.

Lemma disjoint_candidates_witness :
  scan config3 scenario3 ∅ = Ok [scenario3_milder; scenario3_severe] /\
  find_top_drawdown_intervals config3 scenario3
  = Ok (take (Z.to_nat (TOP_N config3))
          (sort_by drawdown_rate [scenario3_milder; scenario3_severe])).
Proof.
  split; [vm_compute; reflexivity|].
  destruct (disjoint_candidates config3 scenario3 [scenario3_milder; scenario3_severe])
    as [Hf _]; [vm_compute; reflexivity| |exact Hf].
  intros [|[|i]] [|[|j]] a b Hij Ha Hb; simpl in Ha, Hb; try lia; try discriminate.
  injection Ha as <-. injection Hb as <-.
  apply intersects_false. vm_compute. reflexivity.
Defined.

(** ** Selecting again *)

Lemma sort_by_sorted_id {A : Type} (key : A -> float) (l : list A) :
  StronglySorted (fun a b => (key a <=? key b)%float = true) l ->
  sort_by key l = l.
Proof.
  induction 1 as [|x l Hs IH Hx]; simpl; [done|].
  rewrite IH. destruct l as [|y l]; simpl; [done|].
  apply Forall_cons in Hx as [Hxy _]. by rewrite (leb_not_ltb _ _ Hxy).
Qed.

Lemma find_sorted_disjoint (cfg : config) (data : DataFrame) (selected : list interval) :
  find_top_drawdown_intervals cfg data = Ok selected ->
  StronglySorted (fun a b => (drawdown_rate a <=? drawdown_rate b)%float = true)
    selected /\
  StronglySorted disjoint_dates selected /\
  Z.of_nat (length selected) <= Z.max 0 (TOP_N cfg).
Proof.
  intros Hf. split.
  - apply find_sublist in Hf as (l & Hl & Hsub).
    eapply StronglySorted_sublist; [done|]. by eapply sort_by_ascending.
  - apply find_inv in Hf as (l & _ & ->).
    destruct (select_spec cfg (sort_by drawdown_rate l) [] ∅)
      as (l' & -> & _ & Hdis & Hlen).
    split; [apply Hdis; constructor|done].
Qed.

(** The returned list is a fixed point of the sort and of the selection:
    sorting it and selecting from it again returns it unchanged. *)
Theorem select_again (cfg : config) (data : DataFrame) (selected : list interval) :
  find_top_drawdown_intervals cfg data = Ok selected ->
  sort_by drawdown_rate selected = selected /\
  (select cfg (sort_by drawdown_rate selected) [] ∅).1 = selected.
Proof.
  intros (Hasc & Hdis & Hlen)%find_sorted_disjoint.
  pose proof (sort_by_sorted_id drawdown_rate selected Hasc) as Hid.
  split; [done|]. rewrite Hid.
  rewrite (select_all_disjoint cfg selected [] ∅); [|done|simpl; lia].
  simpl. apply take_ge. lia.
Qed.

Lemma select_again_witness :
  find_top_drawdown_intervals config4 scenario4 = Ok [scenario4_severe] /\
  (select config4 (sort_by drawdown_rate [scenario4_severe]) [] ∅).1
  = [scenario4_severe].
Proof.
  split; [vm_compute; reflexivity|].
  apply (select_again config4 scenario4). vm_compute. reflexivity.
Defined.

(** ** The set of used dates *)

(** When the selection loop ends, the set of used dates is the union of
    the date sets of the selected intervals, and testing a date set against
    each selected interval, as the loop does, is testing it against that
    set. *)
Theorem used_dates_union (cfg : config) (l : list interval) :
  (select cfg l [] ∅).2 = ⋃ (dates <$> (select cfg l [] ∅).1) /\
  forall current_dates,
    is_overlap current_dates (select cfg l [] ∅).1
    = intersects current_dates (select cfg l [] ∅).2.
Proof.
  assert (H : (select cfg l [] ∅).2 = ⋃ (dates <$> (select cfg l [] ∅).1)).
  { by apply select_used_dates. }
  split; [done|]. intros X. rewrite H. apply is_overlap_union.
Qed.

Lemma used_dates_union_example :
  (select config4 [scenario4_severe; scenario4_milder] [] ∅).2
  = dates scenario4_severe.
Proof. vm_compute. reflexivity. Qed.

(** ** Prices that are not numbers *)

Lemma is_nan_spec (x : float) : is_nan x = true <-> Prim2SF x = S754_nan.
Proof.
  unfold is_nan. rewrite FloatAxioms.eqb_spec.
  destruct (Prim2SF x) as [[]|[]| |[] m e]; unfold SFeqb, SFcompare;
    rewrite ?Z.compare_refl, ?Pos.compare_cont_refl; simpl;
    split; (done || discriminate).
Qed.

Lemma rate_nan (start_price end_price : float) :
  is_nan start_price = true \/ is_nan end_price = true ->
  is_nan (rate start_price end_price) = true.
Proof.
  rewrite !is_nan_spec. unfold rate.
  rewrite mul_spec, sub_spec, div_spec. intros [-> | ->].
  - by destruct (Prim2SF end_price).
  - done.
Qed.

Lemma leb_nan (x y : float) : is_nan x = true -> (x <=? y)%float = false.
Proof. rewrite is_nan_spec, leb_spec. by intros ->. Qed.

Lemma is_number_not_nan (x : float) : is_number x -> is_nan x = false.
Proof.
  unfold is_number. intros Hx. destruct (is_nan x) eqn:Hn; [|done].
  by rewrite (leb_nan x x Hn) in Hx.
Qed.

(** A window whose start price or end price is not a number (a missing
    value of the price column) is never a candidate, whatever the
    threshold; so no returned interval has such a price, or such a rate. *)
Theorem nan_prices_excluded (cfg : config) (data : DataFrame) (selected : list interval) :
  find_top_drawdown_intervals cfg data = Ok selected ->
  (forall w start_price end_price,
     py_getitem (Close data) w.1 = Ok start_price ->
     py_getitem (Close data) (w.1 + w.2) = Ok end_price ->
     is_nan start_price = true \/ is_nan end_price = true ->
     qualifies cfg data w = false) /\
  forall a, a ∈ selected ->
    is_nan (start_price a) = false /\
    is_nan (end_price a) = false /\
    is_nan (drawdown_rate a) = false.
Proof.
  intros Hf. split.
  - intros w sp ep Hsp Hep Hnan. unfold qualifies, window_rate.
    rewrite Hsp, Hep. result_simpl. apply leb_nan. by apply rate_nan.
  - intros a Ha. destruct (find_elem_of cfg data selected a Hf Ha) as (w & Hw & Hc).
    pose proof (emitted_rate cfg data w a Hw Hc) as Hr.
    apply leb_is_number_l, is_number_not_nan in Hr.
    apply candidate_inv in Hc as (_ & _ & _ & _ & _ & _ & _ & Hrate).
    rewrite Hrate in Hr.
    destruct (is_nan (start_price a)) eqn:Hs.
    { rewrite rate_nan in Hr by auto. done. }
    destruct (is_nan (end_price a)) eqn:He.
    { rewrite rate_nan in Hr by auto. done. }
    by rewrite Hrate.
Qed.

Lemma nan_prices_excluded_witness :
  find_top_drawdown_intervals default_config missing_price
  = Ok [missing_price_selected] /\
  qualifies default_config missing_price (0, 5) = false.
Proof.
  split; [vm_compute; reflexivity|].
  destruct (nan_prices_excluded default_config missing_price [missing_price_selected])
    as [Hq _]; [vm_compute; reflexivity|].
  apply (Hq (0, 5) 100%float nan); [vm_compute; reflexivity..|by right].
Defined.

(** ** The number of windows *)

Lemma visited_length (n s : Z) (ds : list Z) :
  (length (visited n s ds) <= length ds)%nat.
Proof.
  induction ds as [|d ds IH]; simpl; [done|].
  destruct (n <=? s + d); simpl; lia.
Qed.

Lemma bind_length_le {A B : Type} (f : A -> list B) (k : nat) (l : list A) :
  (forall x, length (f x) <= k)%nat -> (length (l ≫= f) <= length l * k)%nat.
Proof.
  intros Hf. induction l as [|x l IH]; [done|].
  rewrite bind_cons, length_app. specialize (Hf x). simpl. lia.
Qed.

(** The two loops look at no more than [n * (MAX_DAYS - MIN_DAYS + 1)]
    windows, and the scan returns at most one candidate per window. *)
Theorem windows_bound (cfg : config) (data : DataFrame) :
  Z.of_nat (length (windows cfg data))
  <= len data * Z.max 0 (MAX_DAYS cfg - MIN_DAYS cfg + 1) /\
  forall candidates,
    scan cfg data ∅ = Ok candidates ->
    (length candidates <= length (windows cfg data))%nat.
Proof.
  split.
  - assert (Hr : forall lo hi, length (range lo hi) = Z.to_nat (hi - lo)).
    { intros. unfold range. apply length_seqZ. }
    unfold windows.
    pose proof (bind_length_le
      (fun s => visited (len data) s (range (MIN_DAYS cfg) (MAX_DAYS cfg + 1)))
      (Z.to_nat (MAX_DAYS cfg + 1 - MIN_DAYS cfg)) (range 0 (len data))) as H.
    rewrite Hr in H.
    etrans; [apply inj_le, H|].
    + intros s. etrans; [apply visited_length|]. by rewrite Hr.
    + unfold len. nia.
  - intros l Hl. apply scan_spec, mapM_result_lookup in Hl as [-> _].
    apply sublist_length, filter_sublist.
Qed.

Lemma windows_bound_witness :
  scan config3 scenario3 ∅ = Ok [scenario3_milder; scenario3_severe] /\
  (length [scenario3_milder; scenario3_severe]
   <= length (windows config3 scenario3))%nat.
Proof.
  split; [vm_compute; reflexivity|].
  apply (windows_bound config3 scenario3). vm_compute. reflexivity.
Defined.

(** ** Date sets and positions *)

Lemma py_slice_valid {A : Type} (l : list A) (lo hi : Z) :
  0 <= lo -> lo <= hi -> hi <= Z.of_nat (length l) ->
  py_slice l lo hi = take (Z.to_nat (hi - lo)) (drop (Z.to_nat lo) l).
Proof.
  intros Hlo Hle Hhi. unfold py_slice, slice_bound.
  destruct (Z.ltb_spec lo 0); [lia|]. destruct (Z.ltb_spec hi 0); [lia|].
  by rewrite !Z.min_l by lia.
Qed.

(** The date set of a window is the set of the index entries at its
    positions. *)
Lemma elem_of_window_dates (data : DataFrame) (s d t : Z) :
  0 <= s -> 0 <= d -> s + d < len data ->
  t ∈ py_set (py_slice (index data) s (s + d + 1)) <->
  exists i : nat, s <= Z.of_nat i <= s + d /\ index data !! i = Some t.
Proof.
  intros Hs Hd Hn. unfold py_set. rewrite elem_of_list_to_set.
  rewrite py_slice_valid by (rewrite ?index_length; lia).
  rewrite list_elem_of_lookup. split.
  - intros [j Hj]. apply lookup_take_Some in Hj as [Hj Hlt].
    rewrite lookup_drop in Hj. exists (Z.to_nat s + j)%nat. split; [lia|done].
  - intros (i & Hi & Ht). exists (i - Z.to_nat s)%nat.
    apply lookup_take_Some. split; [|lia].
    rewrite lookup_drop. by replace (Z.to_nat s + (i - Z.to_nat s))%nat with i by lia.
Qed.

Lemma py_getitem_lookup {A : Type} (l : list A) (i : Z) (x : A) :
  0 <= i -> py_getitem l i = Ok x -> l !! Z.to_nat i = Some x.
Proof.
  intros Hi. unfold py_getitem. destruct (_ || _); [done|].
  destruct (Z.ltb_spec i 0); [lia|].
  by destruct (l !! Z.to_nat i); intros [= ->].
Qed.

Lemma window_dates_start (data : DataFrame) (s d : Z) (c : interval) :
  0 <= s -> 0 <= d -> candidate data (s, d) = Ok c -> start_date c ∈ dates c.
Proof.
  intros Hs Hd Hc.
  pose proof (candidate_inv data _ c Hc) as (_ & _ & Hdates & Hsd & Hed & _).
  simpl in *.
  apply py_getitem_Ok_inv in Hed as Hn. rewrite index_length in Hn.
  rewrite Hdates. apply elem_of_window_dates; [lia..|].
  exists (Z.to_nat s). split; [lia|]. by apply py_getitem_lookup.
Qed.

(** For a window of a non-negative length starting at a non-negative
    position, the start date and the end date are in the date set; when no
    date occurs twice in the index the set has one date per position,
    [days + 1] in all. *)
Theorem window_dates (data : DataFrame) (start_idx length_days : Z) (c : interval) :
  0 <= start_idx -> 0 <= length_days ->
  candidate data (start_idx, length_days) = Ok c ->
  start_date c ∈ dates c /\
  end_date c ∈ dates c /\
  (NoDup (index data) -> Z.of_nat (size (dates c)) = days c + 1).
Proof.
  intros Hs Hd Hc.
  pose proof (candidate_inv data _ c Hc) as (Hdays & _ & Hdates & Hsd & Hed & _).
  simpl in *.
  assert (Hn : start_idx + length_days < len data).
  { apply py_getitem_Ok_inv in Hed. rewrite index_length in Hed. lia. }
  rewrite Hdates. split; [|split].
  - apply elem_of_window_dates; [done..|]. exists (Z.to_nat start_idx).
    split; [lia|]. by apply py_getitem_lookup.
  - apply elem_of_window_dates; [done..|]. exists (Z.to_nat (start_idx + length_days)).
    split; [lia|]. apply py_getitem_lookup; [lia|done].
  - intros Hnd. unfold py_set. rewrite size_list_to_set.
    + rewrite py_slice_valid by (rewrite ?index_length; lia).
      rewrite length_take, length_drop.
      pose proof (index_length data) as Hl. unfold len in *. lia.
    + rewrite py_slice_valid by (rewrite ?index_length; lia).
      apply (sublist_NoDup _ (index data)); [done|].
      transitivity (drop (Z.to_nat start_idx) (index data));
        [apply sublist_take|apply sublist_drop].
Qed.

Lemma window_dates_witness :
  0 <= 0 /\ 0 <= 5 /\
  candidate scenario3 (0, 5) = Ok scenario3_milder /\
  start_date scenario3_milder ∈ dates scenario3_milder.
Proof.
  split; [lia|]. split; [lia|]. split; [vm_compute; reflexivity|].
  apply (window_dates scenario3 0 5 scenario3_milder); [lia..|vm_compute; reflexivity].
Defined.

(** When no date occurs twice in the index, two windows share a date
    exactly when their ranges of positions meet: the test on date sets is a
    test on positions. *)
Theorem overlap_by_position (data : DataFrame) (s1 d1 s2 d2 : Z) (c1 c2 : interval) :
  NoDup (index data) ->
  0 <= s1 -> 0 <= d1 -> 0 <= s2 -> 0 <= d2 ->
  candidate data (s1, d1) = Ok c1 ->
  candidate data (s2, d2) = Ok c2 ->
  dates c1 ∩ dates c2 <> ∅ <-> s1 <= s2 + d2 /\ s2 <= s1 + d1.
Proof.
  intros Hnd Hs1 Hd1 Hs2 Hd2 Hc1 Hc2.
  pose proof (candidate_inv data _ c1 Hc1) as (_ & _ & Hdates1 & _ & He1 & _).
  pose proof (candidate_inv data _ c2 Hc2) as (_ & _ & Hdates2 & _ & He2 & _).
  simpl in *.
  apply py_getitem_Ok_inv in He1, He2. rewrite index_length in He1, He2.
  rewrite Hdates1, Hdates2. split.
  - intros [t Ht]%set_choose_L. apply elem_of_intersection in Ht as [Ht1 Ht2].
    apply elem_of_window_dates in Ht1 as (i1 & Hi1 & Hl1); [|lia..].
    apply elem_of_window_dates in Ht2 as (i2 & Hi2 & Hl2); [|lia..].
    assert (i1 = i2) by (by eapply NoDup_lookup). lia.
  - intros [H1 H2] He.
    destruct (lookup_lt_is_Some_2 (index data) (Z.to_nat (Z.max s1 s2))) as [t Ht].
    { pose proof (index_length data) as Hl. unfold len in *. lia. }
    apply (not_elem_of_empty (C:=gset Z) t). rewrite <- He.
    apply elem_of_intersection.
    split; (apply elem_of_window_dates; [lia..|]);
      exists (Z.to_nat (Z.max s1 s2)); (split; [lia|done]).
Qed.

Lemma overlap_by_position_witness :
  NoDup (index scenario4) /\
  (dates scenario4_severe ∩ dates scenario4_milder <> ∅ <-> 0 <= 5 + 10 /\ 5 <= 0 + 10).
Proof.
  assert (Hnd : NoDup (index scenario4)) by (apply (bool_decide_unpack (NoDup (index scenario4))); vm_compute; exact I).
  split; [exact Hnd|].
  apply (overlap_by_position scenario4 0 10 5 10); [exact Hnd|lia..| |];
    vm_compute; reflexivity.
Defined.

(** ** No interval twice *)

(** With window lengths that are not negative, every returned interval
    has a date of its own, so no interval is returned twice. *)
Theorem selected_NoDup (cfg : config) (data : DataFrame) (selected : list interval) :
  0 <= MIN_DAYS cfg ->
  find_top_drawdown_intervals cfg data = Ok selected ->
  NoDup selected /\ forall a, a ∈ selected -> dates a <> ∅.
Proof.
  intros Hmin Hf.
  assert (Hne : forall a, a ∈ selected -> start_date a ∈ dates a).
  { intros a Ha. destruct (find_elem_of cfg data selected a Hf Ha) as ([s d] & Hw & Hc).
    apply elem_of_emitted in Hw as [Hw _]. apply elem_of_windows in Hw.
    apply (window_dates_start data s d); [lia..|done]. }
  split; [|intros a Ha He; specialize (Hne a Ha); rewrite He in Hne;
           by apply not_elem_of_empty in Hne].
  apply find_sorted_disjoint in Hf as (_ & Hdis & _).
  apply NoDup_alt. intros i j a Hi Hj.
  destruct (decide (i = j)) as [|Hij]; [done|]. exfalso.
  assert (dates a ∩ dates a = ∅) as He.
  { destruct (decide (i < j)%nat).
    - by apply (StronglySorted_lookup disjoint_dates selected i j a a).
    - apply (StronglySorted_lookup disjoint_dates selected j i a a); [done|lia|done..]. }
  apply (not_elem_of_empty (C:=gset Z) (start_date a)). rewrite <- He.
  apply elem_of_intersection. split; apply Hne; by eapply list_elem_of_lookup_2.
Qed.

Lemma selected_NoDup_witness :
  0 <= MIN_DAYS config3 /\
  find_top_drawdown_intervals config3 scenario3
  = Ok [scenario3_severe; scenario3_milder] /\
  NoDup [scenario3_severe; scenario3_milder].
Proof.
  split; [simpl; lia|]. split; [vm_compute; reflexivity|].
  apply (selected_NoDup config3 scenario3); [simpl; lia|vm_compute; reflexivity].
Defined.

(** ** How many intervals fit *)

Lemma window_dates_size (data : DataFrame) (s d : Z) (c : interval) :
  NoDup (index data) -> 0 <= s -> 0 <= d ->
  candidate data (s, d) = Ok c ->
  Z.of_nat (size (dates c)) = d + 1 /\ dates c ⊆ py_set (index data).
Proof.
  intros Hnd Hs Hd Hc.
  pose proof (candidate_inv data _ c Hc) as (_ & _ & Hdates & _ & Hed & _).
  simpl in *.
  apply py_getitem_Ok_inv in Hed as Hn. rewrite index_length in Hn.
  rewrite Hdates. split.
  - unfold py_set. rewrite py_slice_valid by (rewrite ?index_length; lia).
    rewrite size_list_to_set.
    + rewrite length_take, length_drop.
      pose proof (index_length data) as Hl. unfold len in *.
      rewrite Nat.min_l by lia. lia.
    + apply (sublist_NoDup _ (index data)); [done|].
      transitivity (drop (Z.to_nat s) (index data));
        [apply sublist_take|apply sublist_drop].
  - intros t Ht. apply elem_of_window_dates in Ht as (i & _ & Hi); [|lia..].
    unfold py_set. apply elem_of_list_to_set. by eapply list_elem_of_lookup_2.
Qed.

Lemma union_dates_size (l : list interval) (k : nat) :
  StronglySorted disjoint_dates l ->
  (forall a, a ∈ l -> (k <= size (dates a))%nat) ->
  (length l * k <= size (⋃ (dates <$> l)))%nat.
Proof.
  induction 1 as [|a l Hs IH Ha]; intros Hk; [simpl; lia|].
  rewrite fmap_cons, union_list_cons, size_union.
  - pose proof (Hk a ltac:(by left)) as Hka.
    specialize (IH ltac:(intros b Hb; apply Hk; by right)).
    cbn [length]. lia.
  - rewrite Forall_forall in Ha.
    intros t Ht1 Ht2. apply elem_of_union_list in Ht2 as (X & HX & HtX).
    apply list_elem_of_fmap in HX as (b & -> & Hb).
    specialize (Ha b Hb). unfold disjoint_dates in Ha.
    apply (not_elem_of_empty (C:=gset Z) t). rewrite <- Ha.
    by apply elem_of_intersection.
Qed.

(** When no date occurs twice in the index and window lengths are not
    negative, each returned interval takes at least [MIN_DAYS + 1] dates
    of its own out of the [n] dates of the series: the function returns at
    most [n / (MIN_DAYS + 1)] intervals, however large [TOP_N] is. *)
Theorem packing_bound (cfg : config) (data : DataFrame) (selected : list interval) :
  NoDup (index data) ->
  0 <= MIN_DAYS cfg ->
  find_top_drawdown_intervals cfg data = Ok selected ->
  Z.of_nat (length selected) * (MIN_DAYS cfg + 1) <= len data.
Proof.
  intros Hnd Hmin Hf.
  assert (Hsel : forall a, a ∈ selected ->
            (Z.to_nat (MIN_DAYS cfg + 1) <= size (dates a))%nat /\
            dates a ⊆ py_set (index data)).
  { intros a Ha. destruct (find_elem_of cfg data selected a Hf Ha) as ([s d] & Hw & Hc).
    apply elem_of_emitted in Hw as [Hw _]. apply elem_of_windows in Hw.
    destruct (window_dates_size data s d a) as [Hsize Hsub]; [done|lia..|done|].
    split; [lia|done]. }
  apply find_sorted_disjoint in Hf as (_ & Hdis & _).
  pose proof (union_dates_size selected (Z.to_nat (MIN_DAYS cfg + 1)) Hdis
                (fun a Ha => proj1 (Hsel a Ha))) as Hsum.
  assert (Hsub : ⋃ (dates <$> selected) ⊆ py_set (index data)).
  { intros t (X & HX & HtX)%elem_of_union_list.
    apply list_elem_of_fmap in HX as (a & -> & Ha). by apply (Hsel a Ha). }
  apply subseteq_size in Hsub. unfold py_set in Hsub.
  rewrite size_list_to_set in Hsub by done.
  pose proof (index_length data) as Hl. unfold len in *. nia.
Qed.

Lemma packing_bound_witness :
  NoDup (index scenario3) /\ 0 <= MIN_DAYS config3 /\
  find_top_drawdown_intervals config3 scenario3
  = Ok [scenario3_severe; scenario3_milder] /\
  Z.of_nat (length [scenario3_severe; scenario3_milder]) * (MIN_DAYS config3 + 1)
  <= len scenario3.
Proof.
  assert (Hnd : NoDup (index scenario3))
    by (apply (bool_decide_unpack (NoDup (index scenario3))); vm_compute; exact I).
  split; [exact Hnd|]. split; [simpl; lia|]. split; [vm_compute; reflexivity|].
  apply (packing_bound config3 scenario3); [exact Hnd|simpl; lia|vm_compute; reflexivity].
Defined.

(** ** The names of the files *)

Example py_replace_all :
  py_replace (lit "ab") (lit "x") (lit "abcabab") = lit "xcxx" /\
  py_replace (lit "aa") (lit "b") (lit "aaa") = lit "ba" /\
  py_replace (lit "") (lit "-") (lit "abc") = lit "-a-b-c-".
Proof. repeat split. Qed.

Example analysis_filename_QQQ :
  analysis_filename (stock_filename (lit "QQQ") (lit "20240102_030405"))
  = lit "data/QQQ_20240102_030405_maxdrawdown_analysis.csv".
Proof. reflexivity. Qed.

(** A ticker that contains [.csv] is rewritten as well. *)
Example analysis_filename_twice :
  analysis_filename (stock_filename (lit "a.csv") (lit "1"))
  = lit "data/a_maxdrawdown_analysis.csv_1_maxdrawdown_analysis.csv".
Proof. reflexivity. Qed.

Lemma starts_with_spec (prefix s : str) :
  starts_with prefix s = true <-> exists rest, s = prefix ++ rest.
Proof.
  revert s. induction prefix as [|p prefix IH]; intros s; simpl.
  { split; [eauto|done]. }
  destruct s as [|c s].
  { split; [done|]. by intros [rest Hr]. }
  rewrite andb_true_iff, Ascii.eqb_eq, IH. split.
  - intros [-> [rest ->]]. eauto.
  - intros [rest [= -> ->]]. eauto.
Qed.

Lemma replace_csv_stem (new stem : str) :
  (forall a b, stem <> a ++ lit ".csv" ++ b) ->
  replace_from (lit ".csv") new 0 (stem ++ lit ".csv") = stem ++ new.
Proof.
  induction stem as [|c stem IH]; intros Hno.
  { simpl. by rewrite app_nil_r. }
  assert (Hs : starts_with (lit ".csv") ((c :: stem) ++ lit ".csv") = false).
  { destruct (starts_with _ _) eqn:E; [|done]. exfalso.
    apply starts_with_spec in E as [rest E].
    destruct stem as [|x [|y [|z stem]]]; try discriminate E.
    injection E as -> -> -> -> E. by apply (Hno [] stem). }
  change ((c :: stem) ++ lit ".csv") with (c :: (stem ++ lit ".csv")) in Hs |- *.
  cbn [replace_from]. rewrite Hs. cbn [app]. f_equal. apply IH.
  intros a b ->. by apply (Hno (c :: a) b).
Qed.

(** When [.csv] does not occur in [data/{ticker}_{timestamp}], as when the
    ticker and the timestamp contain no dot, the analysis goes to
    [data/{ticker}_{timestamp}_maxdrawdown_analysis.csv], a name other than
    the one of the saved data. *)
Theorem analysis_filename_stem (ticker timestamp : str) :
  (forall a b,
     lit "data/" ++ ticker ++ lit "_" ++ timestamp <> a ++ lit ".csv" ++ b) ->
  analysis_filename (stock_filename ticker timestamp)
  = lit "data/" ++ ticker ++ lit "_" ++ timestamp
    ++ lit "_maxdrawdown_analysis.csv" /\
  analysis_filename (stock_filename ticker timestamp)
  <> stock_filename ticker timestamp.
Proof.
  intros Hno.
  assert (Heq : analysis_filename (stock_filename ticker timestamp)
                = (lit "data/" ++ ticker ++ lit "_" ++ timestamp)
                  ++ lit "_maxdrawdown_analysis.csv").
  { unfold analysis_filename, stock_filename.
    change (py_replace (lit ".csv")) with (fun new s => replace_from (lit ".csv") new 0 s).
    cbv beta. rewrite <- (replace_csv_stem _ _ Hno).
    by rewrite <- !app_assoc. }
  split; [by rewrite Heq, <- !app_assoc|].
  rewrite Heq. unfold stock_filename. intros E.
  rewrite <- !app_assoc in E. do 4 apply app_inv_head in E. discriminate E.
Qed.

Lemma no_dot_no_csv (stem : str) :
  dot ∉ stem -> forall a b, stem <> a ++ lit ".csv" ++ b.
Proof.
  intros Hdot a b ->. apply Hdot. rewrite elem_of_app. right. by left.
Qed.

Lemma analysis_filename_stem_witness :
  analysis_filename (stock_filename (lit "QQQ") (lit "20240102_030405"))
  = lit "data/" ++ lit "QQQ" ++ lit "_" ++ lit "20240102_030405"
    ++ lit "_maxdrawdown_analysis.csv".
Proof.
  apply (analysis_filename_stem (lit "QQQ") (lit "20240102_030405")).
  apply no_dot_no_csv.
  apply (bool_decide_unpack (dot ∉ _)). vm_compute. exact I.
Defined.
